(** * PS2 controller high-level analyzer: a shallow embedding of
      [HighLevelAnalyzer.py] and the properties of its decoder.

    The analyzer sits on top of an SPI capture.  It receives a stream of
    frames ([enable], [result] with one MOSI and one MISO word, [disable]),
    accumulates the words of one transaction, classifies the transaction and,
    on [disable], returns one annotation built by the detail renderers of the
    command table.

    Conventions of the embedding:
    - Python [int] is [Z]; [bytes] is [list byte]; [str] is [string] (UTF-8
      bytes, so the four glyph button names are multi-byte strings);
    - a Python exception is a value [Raise e] of the result type [Res];
    - a detail renderer receives the two accumulated lists {e by reference};
      it is a computation over the pair of lists that returns its result and
      the lists as it leaves them;
    - [None] is [option]'s [None]. *)

From Stdlib Require Import ZArith List String Ascii Bool Lia.
From Stdlib Require Import Strings.Byte Hexadecimal.
From Stdlib Require HexadecimalFacts HexadecimalN.
Import ListNotations.

Local Open Scope string_scope.
Local Open Scope Z_scope.

(** ** Python values and exceptions *)

Inductive exn : Type := IndexError | KeyError | TypeError.

Inductive Res (A : Type) : Type :=
| Ok (a : A)
| Raise (e : exn).

Arguments Ok {A} a.
Arguments Raise {A} e.

(** [str(b)] for a Python [bool], as the [%s] conversion prints it. *)
Definition str_bool (b : bool) : string := if b then "True" else "False".

(** Truth value of a Python [int]. *)
Definition truthy (z : Z) : bool := negb (z =? 0).

(** Truth value of a Python [str]. *)
Definition nonempty (s : string) : bool :=
  match s with EmptyString => false | String _ _ => true end.

(** [sep.join(parts)]. *)
Definition join (sep : string) (parts : list string) : string :=
  String.concat sep parts.

(** [int.from_bytes(b, 'big')]. *)
Definition int_from_bytes_big (b : list byte) : Z :=
  fold_left (fun acc x => acc * 256 + Z.of_N (Byte.to_N x)) b 0.

(** The digits of a hexadecimal numeral, printed in upper case as the [X]
    conversion does. *)
Fixpoint upper_hex_string (d : Hexadecimal.uint) : string :=
  match d with
  | Hexadecimal.Nil => EmptyString
  | Hexadecimal.D0 r => String "0" (upper_hex_string r)
  | Hexadecimal.D1 r => String "1" (upper_hex_string r)
  | Hexadecimal.D2 r => String "2" (upper_hex_string r)
  | Hexadecimal.D3 r => String "3" (upper_hex_string r)
  | Hexadecimal.D4 r => String "4" (upper_hex_string r)
  | Hexadecimal.D5 r => String "5" (upper_hex_string r)
  | Hexadecimal.D6 r => String "6" (upper_hex_string r)
  | Hexadecimal.D7 r => String "7" (upper_hex_string r)
  | Hexadecimal.D8 r => String "8" (upper_hex_string r)
  | Hexadecimal.D9 r => String "9" (upper_hex_string r)
  | Hexadecimal.Da r => String "A" (upper_hex_string r)
  | Hexadecimal.Db r => String "B" (upper_hex_string r)
  | Hexadecimal.Dc r => String "C" (upper_hex_string r)
  | Hexadecimal.Dd r => String "D" (upper_hex_string r)
  | Hexadecimal.De r => String "E" (upper_hex_string r)
  | Hexadecimal.Df r => String "F" (upper_hex_string r)
  end.

(** Upper-case hexadecimal digits of a natural number, without padding
    (zero prints as one digit). *)
Definition hex_upper (n : N) : string := upper_hex_string (N.to_hex_uint n).

(** ['%02X' % n]: upper-case hexadecimal, zero-padded to width two (the
    sign of a negative number counts in the width). *)
Definition format_02X (n : Z) : string :=
  if n <? 0 then "-" ++ hex_upper (Z.to_N (- n))
  else
    let s := hex_upper (Z.to_N n) in
    if (String.length s <? 2)%nat then "0" ++ s else s.

(** ** The two lists a renderer is called with *)

Record Args : Type := mkArgs {
  command_bytes : list Z;
  data_bytes : list Z
}.

(** A renderer body: runs on the two lists, returns a value or raises, and
    hands the lists back. *)
Definition Render (A : Type) : Type := Args -> Res A * Args.

Definition ret {A} (a : A) : Render A := fun args => (Ok a, args).

Definition raise {A} (e : exn) : Render A := fun args => (Raise e, args).

Definition bind {A B} (m : Render A) (k : A -> Render B) : Render B :=
  fun args =>
    match m args with
    | (Ok a, args') => k a args'
    | (Raise e, args') => (Raise e, args')
    end.

Notation "x <- m ;; k" := (bind m (fun x => k))
  (at level 61, m at next level, right associativity).

(** [l[i]] for a constant index [i >= 0]: [IndexError] out of range. *)
Definition getitem (l : list Z) (i : nat) : Res Z :=
  match nth_error l i with
  | Some z => Ok z
  | None => Raise IndexError
  end.

(** [command_bytes[i]] *)
Definition command_bytes_at (i : nat) : Render Z :=
  fun args => (getitem (command_bytes args) i, args).

(** [data_bytes[i]] *)
Definition data_bytes_at (i : nat) : Render Z :=
  fun args => (getitem (data_bytes args) i, args).

(** ** Tables *)

Record CommandMetadata : Type := mkCommandMetadata {
  id : Z;
  name : string;
  command_details_generator : Render string;
  data_details_generator : Render string
}.

Definition DIGITAL_BUTTONS : list string :=
  ["Select"; "L3"; "R3"; "Start"; "D-Up"; "D-Right"; "D-Down"; "D-Left";
   "L2"; "R2"; "L1"; "R1"; "🔺"; "⚪"; "✖"; "⬛"].

(** [enumerate(l)], counting from [start]. *)
Fixpoint enumerate_from {A} (start : Z) (l : list A) : list (Z * A) :=
  match l with
  | [] => []
  | x :: r => (start, x) :: enumerate_from (start + 1) r
  end.

Definition enumerate {A} (l : list A) : list (Z * A) := enumerate_from 0 l.

(** ** Detail renderers *)

Definition command_empty_details : Render string := ret EmptyString.

Definition data_empty_details : Render string := ret "(...)".

Definition cmd42_command_details : Render string :=
  c3 <- command_bytes_at 3 ;;
  cond <- (if truthy c3 then ret c3 else command_bytes_at 4) ;;
  if truthy cond then
    small_motor_mapping <- command_bytes_at 3 ;;
    large_motor_mapping <- command_bytes_at 4 ;;
    ret ("Small Motor " ++ str_bool (small_motor_mapping =? 255)
         ++ ", Large Motor " ++ str_bool (large_motor_mapping >=? 64))
  else ret EmptyString.

(** The [for bi, button_name in enumerate(DIGITAL_BUTTONS)] loop, with the
    local list [digital_buttons] as accumulator. *)
Fixpoint cmd42_data_loop (items : list (Z * string))
    (digital_buttons : list string) : Render (list string) :=
  match items with
  | [] => ret digital_buttons
  | (bi, button_name) :: rest =>
      let byte_number := if bi <? 8 then 3%nat else 4%nat in
      let bit_number := bi mod 8 in
      digital_byte <- data_bytes_at byte_number ;;
      if Z.land digital_byte (Z.shiftl 1 bit_number) =? 0
      then cmd42_data_loop rest (digital_buttons ++ [button_name])%list
      else cmd42_data_loop rest digital_buttons
  end.

Definition cmd42_data_details : Render string :=
  digital_buttons <- cmd42_data_loop (enumerate DIGITAL_BUTTONS) [] ;;
  match digital_buttons with
  | _ :: _ => ret (join ", " digital_buttons)
  | [] => ret "(no buttons)"
  end.

Definition cmd43_command_details : Render string :=
  c3 <- command_bytes_at 3 ;;
  ret (if c3 =? 1 then "Enter" else "Exit").

Definition cmd43_data_details : Render string :=
  d1 <- data_bytes_at 1 ;;
  if d1 =? 243 then ret "(no data)" else cmd42_data_details.

Definition cmd44_command_details : Render string :=
  c3 <- command_bytes_at 3 ;;
  let is_analog := c3 =? 1 in
  c4 <- command_bytes_at 4 ;;
  let is_locked := c4 =? 3 in
  let mode_string := if is_analog then "Analog" else "Digital" in
  let locked_string := if is_locked then " (Locked)" else EmptyString in
  ret ("Set " ++ mode_string ++ locked_string).

Definition cmd46_command_details : Render string :=
  offset <- command_bytes_at 3 ;;
  if offset =? 0 then ret "First Byte"
  else if offset =? 1 then ret "Second Byte"
  else ret "Unknown Byte".

Definition cmd4c_command_details : Render string := cmd46_command_details.

Definition cmd4d_command_details : Render string :=
  small_mapping <- command_bytes_at 3 ;;
  large_mapping <- command_bytes_at 4 ;;
  let details :=
    [(if small_mapping =? 0 then "Map" else "Unmap") ++ " Small";
     (if large_mapping =? 1 then "Map" else "Unmap") ++ " Large"] in
  ret (join ", " details).

Definition COMMAND_METADATA : list (Z * CommandMetadata) :=
  [(64, mkCommandMetadata 64 "Initialize Pressure Sensors" command_empty_details data_empty_details);
   (65, mkCommandMetadata 65 "Button Inclusions" command_empty_details data_empty_details);
   (66, mkCommandMetadata 66 "Main Polling" cmd42_command_details cmd42_data_details);
   (67, mkCommandMetadata 67 "Enter/Exit Config Mode" cmd43_command_details cmd43_data_details);
   (68, mkCommandMetadata 68 "Switch Analog/Digital Mode" cmd44_command_details data_empty_details);
   (69, mkCommandMetadata 69 "Get Status Info" command_empty_details data_empty_details);
   (70, mkCommandMetadata 70 "Device Descriptor" cmd46_command_details data_empty_details);
   (71, mkCommandMetadata 71 "Device Descriptor" command_empty_details data_empty_details);
   (76, mkCommandMetadata 76 "Device Descriptor" cmd4c_command_details data_empty_details);
   (77, mkCommandMetadata 77 "Map Rumble Motors" cmd4d_command_details data_empty_details);
   (79, mkCommandMetadata 79 "Configure Analog Response" command_empty_details data_empty_details)].

Definition MODE_NAMES : list (Z * string) :=
  [(65, "Digital"); (115, "Analog"); (121, "Analog with Pressure");
   (243, "Configuration")].

(** [d.get(k)] on a dictionary with integer keys, [None] when absent. *)
Fixpoint dict_get {V} (d : list (Z * V)) (k : Z) : option V :=
  match d with
  | [] => None
  | (k', v) :: r => if k =? k' then Some v else dict_get r k
  end.

(** [k in d] *)
Definition dict_mem {V} (d : list (Z * V)) (k : Z) : bool :=
  match dict_get d k with Some _ => true | None => false end.

(** ** Frames *)

(** A [saleae.data.GraphTime] object.  The analyzer only stores and forwards
    it; as an object without [__bool__] or [__len__] it is always true in a
    condition. *)
Inductive GraphTime : Type := GraphTimeAt (t : Z).

(** A value of a frame's [data] dictionary. *)
Inductive Value : Type :=
| Bytes (b : list byte)
| Str (s : string).

(** [AnalyzerFrame(type, start_time, end_time, data)]: the frames the
    analyzer receives and the frames it returns are of this one class. *)
Record AnalyzerFrame : Type := mkAnalyzerFrame {
  type : string;
  start_time : GraphTime;
  end_time : GraphTime;
  data : list (string * Value)
}.

(** [d[k]] on a dictionary with string keys. *)
Fixpoint data_get (d : list (string * Value)) (k : string) : Res Value :=
  match d with
  | [] => Raise KeyError
  | (k', v) :: r => if (k =? k')%string then Ok v else data_get r k
  end.

(** [int.from_bytes(frame.data[k], 'big')] *)
Definition frame_int (frame : AnalyzerFrame) (k : string) : Res Z :=
  match data_get (data frame) k with
  | Ok (Bytes b) => Ok (int_from_bytes_big b)
  | Ok (Str _) => Raise TypeError
  | Raise e => Raise e
  end.

(** The frames of the SPI analyzer underneath. *)
Definition enable_frame (t : GraphTime) : AnalyzerFrame :=
  mkAnalyzerFrame "enable" t t [].

Definition disable_frame (t : GraphTime) : AnalyzerFrame :=
  mkAnalyzerFrame "disable" t t [].

Definition result_frame (t t' : GraphTime) (mosi miso : list byte)
  : AnalyzerFrame :=
  mkAnalyzerFrame "result" t t' [("mosi", Bytes mosi); ("miso", Bytes miso)].

(** ** The analyzer object *)

Record Hla : Type := mkHla {
  current_frame_type : option string;
  current_frame_start_time : option GraphTime;
  current_frame_command_id : option Z;
  current_controller_mode : option Z;
  current_frame_command_bytes : list Z;
  current_frame_data_bytes : list Z;
  current_frame_index : Z
}.

(** [reset(self)]: every field is overwritten, so the result does not depend
    on the previous state.  [__init__] is [reset]. *)
Definition reset : Hla :=
  mkHla None None None None [] [] 0.

Definition set_type (self : Hla) (t : string) : Hla :=
  mkHla (Some t) (current_frame_start_time self)
        (current_frame_command_id self) (current_controller_mode self)
        (current_frame_command_bytes self) (current_frame_data_bytes self)
        (current_frame_index self).

Definition set_start_time (self : Hla) (t : GraphTime) : Hla :=
  mkHla (current_frame_type self) (Some t)
        (current_frame_command_id self) (current_controller_mode self)
        (current_frame_command_bytes self) (current_frame_data_bytes self)
        (current_frame_index self).

Definition set_command (self : Hla) (command data : Z) : Hla :=
  mkHla (current_frame_type self) (current_frame_start_time self)
        (Some command) (Some data)
        (current_frame_command_bytes self) (current_frame_data_bytes self)
        (current_frame_index self).

Definition set_index (self : Hla) (i : Z) : Hla :=
  mkHla (current_frame_type self) (current_frame_start_time self)
        (current_frame_command_id self) (current_controller_mode self)
        (current_frame_command_bytes self) (current_frame_data_bytes self)
        i.

(** The two lists of [self], as the renderers see them. *)
Definition args_of (self : Hla) : Args :=
  mkArgs (current_frame_command_bytes self) (current_frame_data_bytes self).

(** The lists are shared with the renderers: what a renderer leaves in them
    is what [self] holds afterwards. *)
Definition set_args (self : Hla) (a : Args) : Hla :=
  mkHla (current_frame_type self) (current_frame_start_time self)
        (current_frame_command_id self) (current_controller_mode self)
        (command_bytes a) (data_bytes a)
        (current_frame_index self).

(** [self.current_frame_command_bytes.append(command)] and
    [self.current_frame_data_bytes.append(data)] *)
Definition append_bytes (self : Hla) (command data : Z) : Hla :=
  set_args self
    (mkArgs (current_frame_command_bytes self ++ [command])%list
            (current_frame_data_bytes self ++ [data])%list).

(** [self.current_frame_type == t] *)
Definition type_is (self : Hla) (t : string) : bool :=
  match current_frame_type self with
  | Some t' => (t' =? t)%string
  | None => false
  end.

(** [try: ... except: details = '(error)'] *)
Definition or_error (r : Res string) : string :=
  match r with
  | Ok s => s
  | Raise _ => "(error)"
  end.

(** Which of the two generators of a descriptor was called. *)
Inductive Side : Type := CommandSide | DataSide.

(** One call of [decode]: the analyzer afterwards, the renderer calls made
    (descriptor id and side, in order), and the value returned or the
    exception that escaped. *)
Record Decoded : Type := mkDecoded {
  next : Hla;
  calls : list (Z * Side);
  returned : Res (option AnalyzerFrame)
}.

(** The [disable] branch once its guard has passed. *)
Definition finalize (self : Hla) (start : GraphTime) (frame : AnalyzerFrame)
  : Decoded :=
  match current_frame_command_id self with
  | None => mkDecoded self [] (Raise KeyError)
  | Some cid =>
    match dict_get COMMAND_METADATA cid with
    | None => mkDecoded self [] (Raise KeyError)
    | Some command_metadata =>
      let (r1, a1) := command_details_generator command_metadata (args_of self) in
      let command_details := or_error r1 in
      let (r2, a2) := data_details_generator command_metadata a1 in
      let data_details := or_error r2 in
      let self' := set_args self a2 in
      let log := [(id command_metadata, CommandSide);
                  (id command_metadata, DataSide)] in
      match current_controller_mode self with
      | None => mkDecoded self' log (Raise TypeError)
      | Some mode =>
        mkDecoded self' log
          (Ok (Some (mkAnalyzerFrame "valid-command" start (end_time frame)
            [("mode_string",
              Str (match dict_get MODE_NAMES mode with
                   | Some s => s
                   | None => "Unknown Mode"
                   end));
             ("mode_id", Str (format_02X mode));
             ("command_name", Str (name command_metadata));
             ("command_id", Str (format_02X (id command_metadata)));
             ("command_details",
              Str (if nonempty command_details
                   then " - " ++ command_details else EmptyString));
             ("data_details",
              Str (if nonempty data_details then data_details else EmptyString))])))
      end
    end
  end.

Definition decode (self : Hla) (frame : AnalyzerFrame) : Decoded :=
  if (type frame =? "enable")%string then
    let self := reset in
    let self := set_start_time self (start_time frame) in
    let self := set_index self 0 in
    mkDecoded self [] (Ok None)
  else if (type frame =? "result")%string then
    match frame_int frame "mosi" with
    | Raise e => mkDecoded self [] (Raise e)
    | Ok command =>
      match frame_int frame "miso" with
      | Raise e => mkDecoded self [] (Raise e)
      | Ok data =>
        let self :=
          if (current_frame_index self =? 0) && negb (command =? 1) then
            set_type self "invalid-packet"
          else if current_frame_index self =? 1 then
            let self := set_command self command data in
            if negb (dict_mem COMMAND_METADATA command) then
              set_type self "invalid-command"
            else
              set_type self "valid-command"
          else self in
        let self := append_bytes self command data in
        let self := set_index self (current_frame_index self + 1) in
        mkDecoded self [] (Ok None)
      end
    end
  else if (type frame =? "disable")%string then
    match current_frame_start_time self with
    | Some start =>
      if type_is self "valid-command" then finalize self start frame
      else mkDecoded self [] (Ok None)
    | None => mkDecoded self [] (Ok None)
    end
  else mkDecoded self [] (Ok None).

(** The host feeds the frames of a capture to [decode] one after the other;
    [run] lists what each call did. *)
Fixpoint run (self : Hla) (frames : list AnalyzerFrame) : list Decoded :=
  match frames with
  | [] => []
  | frame :: rest =>
      let d := decode self frame in
      d :: run (next d) rest
  end.

(** The analyzer after the frames. *)
Definition final (self : Hla) (frames : list AnalyzerFrame) : Hla :=
  fold_left (fun s frame => next (decode s frame)) frames self.

(** A call emitted an annotation. *)
Definition emits (d : Decoded) : bool :=
  match returned d with
  | Ok (Some _) => true
  | _ => false
  end.

(** [frame.data[k]] of a returned annotation, as a string. *)
Definition field (a : AnalyzerFrame) (k : string) : option string :=
  match data_get (data a) k with
  | Ok (Str s) => Some s
  | _ => None
  end.



(** One SPI word of a single byte. *)
Definition word (z : Z) : list byte :=
  match Byte.of_N (Z.to_N z) with
  | Some b => [b]
  | None => []
  end.

(** A whole transaction as the SPI analyzer delivers it: [enable], one
    [result] per byte pair, [disable]. *)
Definition transaction (t0 t1 : GraphTime) (pairs : list (list byte * list byte))
  : list AnalyzerFrame :=
  (enable_frame t0
   :: map (fun p => result_frame t0 t1 (fst p) (snd p)) pairs
   ++ [disable_frame t1])%list.

(** ** Reference definitions for the button mask *)

(** The sixteen button names as the protocol documentation spells them. *)
Definition SPEC_BUTTON_NAMES : list string :=
  ["Select"; "L3"; "R3"; "Start"; "D-Up"; "D-Right"; "D-Down"; "D-Left";
   "L2"; "R2"; "L1"; "R1"; "Triangle"; "Circle"; "Cross"; "Square"].

(** The 16-bit mask: bits 0-7 from the byte at offset 3, bits 8-15 from the
    byte at offset 4. *)
Definition button_mask (b3 b4 : Z) : Z :=
  Z.lor (Z.land b3 255) (Z.shiftl (Z.land b4 255) 8).

(** The names whose bit of [mask] is 0, the first name standing for bit [i]. *)
Fixpoint pressed_names (names : list string) (i : Z) (mask : Z) : list string :=
  match names with
  | [] => []
  | n :: r =>
      if Z.testbit mask i then pressed_names r (i + 1) mask
      else n :: pressed_names r (i + 1) mask
  end.

Definition render_mask (names : list string) (mask : Z) : string :=
  match pressed_names names 0 mask with
  | [] => "(no buttons)"
  | l => join ", " l
  end.

(** ** Predicates *)

(** A renderer body that hands the two lists back as it got them. *)
Definition read_only {A} (m : Render A) : Prop :=
  forall a, snd (m a) = a.

(** A classified-valid analyzer knows its descriptor and its mode. *)
Definition resolved (self : Hla) : Prop :=
  type_is self "valid-command" = true ->
  exists cid meta mode,
    current_frame_command_id self = Some cid /\
    dict_get COMMAND_METADATA cid = Some meta /\
    current_controller_mode self = Some mode.

(** An analyzer past index 1 whose transaction was classified as an
    unknown command. *)
Definition rejected (self : Hla) : Prop :=
  current_frame_type self = Some "invalid-command" /\
  2 <= current_frame_index self.

(** A call that neither emitted an annotation nor called a renderer. *)
Definition silent (d : Decoded) : Prop :=
  emits d = false /\ calls d = [].

(** ** Reference definitions for the state machine *)

(** The classification the accumulated console bytes lead to: nothing is
    written before a byte arrives, the first byte alone can only mark the
    packet invalid, and the second byte decides between a known and an
    unknown command. *)
Definition classification (cb : list Z) : option string :=
  match cb with
  | [] => None
  | [c0] => if c0 =? 1 then None else Some "invalid-packet"
  | _ :: c1 :: _ =>
      Some (if dict_mem COMMAND_METADATA c1 then "valid-command"
            else "invalid-command")
  end.

(** The fields of the analyzer agree with the bytes it has accumulated. *)
Definition coherent (self : Hla) : Prop :=
  current_frame_index self
    = Z.of_nat (List.length (current_frame_command_bytes self)) /\
  List.length (current_frame_command_bytes self)
    = List.length (current_frame_data_bytes self) /\
  current_frame_type self = classification (current_frame_command_bytes self) /\
  current_frame_command_id self = nth_error (current_frame_command_bytes self) 1 /\
  current_controller_mode self = nth_error (current_frame_data_bytes self) 1.

(** A frame as the SPI analyzer builds it: a [result] frame carries [bytes]
    under both keys. *)
Definition spi_frame (f : AnalyzerFrame) : Prop :=
  type f = "result" ->
  exists mosi miso,
    data_get (data f) "mosi" = Ok (Bytes mosi) /\
    data_get (data f) "miso" = Ok (Bytes miso).

(** The frame types [decode] has a branch for. *)
Definition handled (f : AnalyzerFrame) : bool :=
  ((type f =? "enable") || (type f =? "result") || (type f =? "disable"))%string.

(** The annotations a run handed to the host, in order. *)
Fixpoint annotations (ds : list Decoded) : list AnalyzerFrame :=
  match ds with
  | [] => []
  | d :: r =>
      match returned d with
      | Ok (Some a) => a :: annotations r
      | _ => annotations r
      end
  end.

(** The console and the device values of a list of byte pairs. *)
Definition console_values (pairs : list (list byte * list byte)) : list Z :=
  map (fun p => int_from_bytes_big (fst p)) pairs.

Definition device_values (pairs : list (list byte * list byte)) : list Z :=
  map (fun p => int_from_bytes_big (snd p)) pairs.

(** A [result] frame that carries a pair of words: whatever its times and
    whatever else its [data] holds. *)
Definition carries (f : AnalyzerFrame) (p : list byte * list byte) : Prop :=
  type f = "result" /\
  data_get (data f) "mosi" = Ok (Bytes (fst p)) /\
  data_get (data f) "miso" = Ok (Bytes (snd p)).

(** ** The renderer monad *)

Lemma read_only_ret {A} (x : A) : read_only (ret x).
Proof. intros a; reflexivity. Qed.

Lemma read_only_bind {A B} (m : Render A) (k : A -> Render B) :
  read_only m -> (forall x, read_only (k x)) -> read_only (bind m k).
Proof.
  intros Hm Hk a. unfold bind.
  specialize (Hm a). destruct (m a) as [[x | e] a']; simpl in *; subst.
  - apply Hk.
  - reflexivity.
Qed.

Lemma read_only_command_bytes_at i : read_only (command_bytes_at i).
Proof. intros a; reflexivity. Qed.

Lemma read_only_data_bytes_at i : read_only (data_bytes_at i).
Proof. intros a; reflexivity. Qed.

Lemma read_only_if {A} (b : bool) (m1 m2 : Render A) :
  read_only m1 -> read_only m2 -> read_only (if b then m1 else m2).
Proof. destruct b; auto. Qed.

Create HintDb ro discriminated.
#[local] Hint Resolve read_only_ret read_only_command_bytes_at
  read_only_data_bytes_at : ro.

Ltac ro_step :=
  match goal with
  | |- read_only (bind _ _) => apply read_only_bind; [ | intros ? ]
  | |- read_only (if _ then _ else _) => apply read_only_if
  | |- read_only _ => solve [ auto with ro ]
  end.

Ltac ro := repeat ro_step.

Lemma read_only_cmd42_data_loop items :
  forall acc, read_only (cmd42_data_loop items acc).
Proof.
  induction items as [| [bi button_name] rest IH]; intros acc; simpl.
  - ro.
  - ro; apply IH.
Qed.

Lemma read_only_command_empty_details : read_only command_empty_details.
Proof. unfold command_empty_details; ro. Qed.

Lemma read_only_data_empty_details : read_only data_empty_details.
Proof. unfold data_empty_details; ro. Qed.

Lemma read_only_cmd42_command_details : read_only cmd42_command_details.
Proof. unfold cmd42_command_details; ro. Qed.

Lemma read_only_cmd42_data_details : read_only cmd42_data_details.
Proof.
  unfold cmd42_data_details. apply read_only_bind.
  - apply read_only_cmd42_data_loop.
  - intros [| n l]; ro.
Qed.

Lemma read_only_cmd43_command_details : read_only cmd43_command_details.
Proof. unfold cmd43_command_details; ro. Qed.

Lemma read_only_cmd43_data_details : read_only cmd43_data_details.
Proof.
  unfold cmd43_data_details; ro. apply read_only_cmd42_data_details.
Qed.

Lemma read_only_cmd44_command_details : read_only cmd44_command_details.
Proof. unfold cmd44_command_details; ro. Qed.

Lemma read_only_cmd46_command_details : read_only cmd46_command_details.
Proof. unfold cmd46_command_details; ro. Qed.

Lemma read_only_cmd4c_command_details : read_only cmd4c_command_details.
Proof. apply read_only_cmd46_command_details. Qed.

Lemma read_only_cmd4d_command_details : read_only cmd4d_command_details.
Proof. unfold cmd4d_command_details; ro. Qed.

#[local] Hint Resolve read_only_command_empty_details
  read_only_data_empty_details read_only_cmd42_command_details
  read_only_cmd42_data_details read_only_cmd43_command_details
  read_only_cmd43_data_details read_only_cmd44_command_details
  read_only_cmd46_command_details read_only_cmd4c_command_details
  read_only_cmd4d_command_details : ro.

(** Every generator of the command table is read-only. *)
Lemma registry_read_only :
  Forall (fun e =>
            read_only (command_details_generator (snd e)) /\
            read_only (data_details_generator (snd e)))
         COMMAND_METADATA.
Proof.
  unfold COMMAND_METADATA.
  repeat (apply Forall_cons; [ simpl; split; auto with ro | ]).
  apply Forall_nil.
Qed.

Lemma dict_get_In {V} (d : list (Z * V)) k v :
  dict_get d k = Some v -> In (k, v) d.
Proof.
  induction d as [| [k' v'] r IH]; simpl; [ discriminate | ].
  destruct (Z.eqb_spec k k') as [-> | Hne].
  - intros [= ->]. now left.
  - intros H. right. auto.
Qed.

Lemma registry_lookup_read_only cid meta :
  dict_get COMMAND_METADATA cid = Some meta ->
  read_only (command_details_generator meta) /\
  read_only (data_details_generator meta).
Proof.
  intros H. apply dict_get_In in H.
  pose proof registry_read_only as HF.
  rewrite Forall_forall in HF. apply (HF _ H).
Qed.

(** ** Bits of the button bytes *)

(** The test [digital_byte & (1 << k) == 0] reads bit [k]. *)
Lemma land_bit_test d k :
  0 <= k -> (Z.land d (Z.shiftl 1 k) =? 0) = negb (Z.testbit d k).
Proof.
  intros Hk. rewrite Z.shiftl_1_l.
  destruct (Z.testbit d k) eqn:Hb; simpl.
  - apply Z.eqb_neq. intros H0.
    assert (Hk' : Z.testbit (Z.land d (2 ^ k)) k = true).
    { rewrite Z.land_spec, Hb, Z.pow2_bits_true by lia. reflexivity. }
    rewrite H0, Z.bits_0 in Hk'. discriminate.
  - apply Z.eqb_eq. apply Z.bits_inj'. intros n Hn.
    rewrite Z.land_spec, Z.bits_0, Z.pow2_bits_eqb by lia.
    destruct (Z.eqb_spec k n) as [-> | Hne].
    + rewrite Hb. reflexivity.
    + apply andb_false_r.
Qed.

Lemma button_mask_low b3 b4 i :
  0 <= i < 8 -> Z.testbit (button_mask b3 b4) i = Z.testbit b3 i.
Proof.
  intros Hi. unfold button_mask.
  rewrite Z.lor_spec, Z.shiftl_spec_low, orb_false_r by lia.
  change 255 with (Z.ones 8).
  rewrite Z.land_ones, Z.mod_pow2_bits_low by lia. reflexivity.
Qed.

Lemma button_mask_high b3 b4 i :
  8 <= i < 16 -> Z.testbit (button_mask b3 b4) i = Z.testbit b4 (i - 8).
Proof.
  intros Hi. unfold button_mask.
  rewrite Z.lor_spec, Z.shiftl_spec by lia.
  change 255 with (Z.ones 8).
  rewrite !Z.land_ones by lia.
  rewrite Z.mod_pow2_bits_high by lia.
  rewrite Z.mod_pow2_bits_low by lia. reflexivity.
Qed.

(** The loop of the Main Polling data renderer, when both button bytes are
    there: it appends the names of the cleared mask bits. *)
Lemma cmd42_data_loop_mask a b3 b4 :
  nth_error (data_bytes a) 3 = Some b3 ->
  nth_error (data_bytes a) 4 = Some b4 ->
  forall names i acc,
    0 <= i -> i + Z.of_nat (List.length names) <= 16 ->
    cmd42_data_loop (enumerate_from i names) acc a =
    (Ok (acc ++ pressed_names names i (button_mask b3 b4))%list, a).
Proof.
  intros H3 H4. induction names as [| n r IH]; intros i acc Hi Hlen.
  - simpl. unfold ret. rewrite app_nil_r. reflexivity.
  - cbn [List.length] in Hlen.
    cbn [enumerate_from cmd42_data_loop pressed_names].
    unfold bind, data_bytes_at, getitem.
    destruct (Z.ltb_spec i 8) as [Hlt | Hge].
    + rewrite H3. rewrite Z.mod_small by lia.
      rewrite land_bit_test by lia.
      rewrite button_mask_low by lia.
      destruct (Z.testbit b3 i); cbn [negb].
      * apply IH; lia.
      * rewrite IH by lia. rewrite <- app_assoc. reflexivity.
    + rewrite H4.
      replace (i mod 8) with (i - 8)
        by (apply Z.mod_unique with (q := 1); lia).
      rewrite land_bit_test by lia.
      rewrite button_mask_high by lia.
      destruct (Z.testbit b4 (i - 8)); cbn [negb].
      * apply IH; lia.
      * rewrite IH by lia. rewrite <- app_assoc. reflexivity.
Qed.

Lemma cmd42_data_details_mask a b3 b4 :
  nth_error (data_bytes a) 3 = Some b3 ->
  nth_error (data_bytes a) 4 = Some b4 ->
  cmd42_data_details a =
  (Ok (render_mask DIGITAL_BUTTONS (button_mask b3 b4)), a).
Proof.
  intros H3 H4. unfold cmd42_data_details, bind, enumerate.
  rewrite (cmd42_data_loop_mask a b3 b4 H3 H4) by (simpl; lia).
  rewrite app_nil_l. unfold render_mask.
  destruct (pressed_names DIGITAL_BUTTONS 0 (button_mask b3 b4));
    reflexivity.
Qed.

(** ** What the Main Polling data renderer can return *)

Lemma map_snd_enumerate_from {A} (l : list A) :
  forall i, map snd (enumerate_from i l) = l.
Proof.
  induction l as [| x r IH]; intros i; simpl; [ | rewrite IH ]; reflexivity.
Qed.

(** Whatever the data bytes are, the loop raises [IndexError] or extends the
    accumulator by names taken from its items; the lists are untouched. *)
Lemma cmd42_data_loop_shape items :
  forall acc a,
    exists r, cmd42_data_loop items acc a = (r, a) /\
      (r = Raise IndexError \/
       exists sub, r = Ok (acc ++ sub)%list /\ incl sub (map snd items)).
Proof.
  induction items as [| [bi button_name] rest IH]; intros acc a.
  - exists (Ok acc). split; [ reflexivity | right ].
    exists []. rewrite app_nil_r. split; [ reflexivity | apply incl_nil_l ].
  - cbn [cmd42_data_loop map snd].
    unfold bind, data_bytes_at, getitem.
    destruct (nth_error (data_bytes a) (if bi <? 8 then 3%nat else 4%nat))
      as [digital_byte |].
    + destruct (Z.land digital_byte (Z.shiftl 1 (bi mod 8)) =? 0).
      * destruct (IH (acc ++ [button_name])%list a) as (r & Hr & Hshape).
        exists r. split; [ exact Hr | ].
        destruct Hshape as [-> | (sub & -> & Hsub)]; [ now left | right ].
        exists (button_name :: sub). rewrite <- app_assoc. split.
        -- reflexivity.
        -- apply incl_cons; [ now left | now apply incl_tl ].
      * destruct (IH acc a) as (r & Hr & Hshape).
        exists r. split; [ exact Hr | ].
        destruct Hshape as [-> | (sub & -> & Hsub)]; [ now left | right ].
        exists sub. split; [ reflexivity | now apply incl_tl ].
    + exists (Raise IndexError). split; [ reflexivity | now left ].
Qed.

Lemma cmd42_data_details_shape a :
  fst (cmd42_data_details a) = Raise IndexError \/
  fst (cmd42_data_details a) = Ok "(no buttons)" \/
  exists n l, In n DIGITAL_BUTTONS /\
              fst (cmd42_data_details a) = Ok (join ", " (n :: l)).
Proof.
  unfold cmd42_data_details, bind, enumerate.
  destruct (cmd42_data_loop_shape (enumerate_from 0 DIGITAL_BUTTONS) [] a)
    as (r & -> & [-> | (sub & -> & Hsub)]).
  - now left.
  - rewrite map_snd_enumerate_from in Hsub. rewrite app_nil_l.
    destruct sub as [| n l]; [ right; left; reflexivity | ].
    right; right. exists n, l. split; [ | reflexivity ].
    apply Hsub. now left.
Qed.

(** No joined list of button names reads ["(no data)"]. *)
Lemma join_buttons_not_no_data n l :
  In n DIGITAL_BUTTONS -> join ", " (n :: l) <> "(no data)".
Proof.
  unfold DIGITAL_BUTTONS. intros Hin.
  repeat (destruct Hin as [<- | Hin];
          [ destruct l; simpl; discriminate | ]).
  destruct Hin.
Qed.

Lemma cmd42_data_details_not_no_data a :
  fst (cmd42_data_details a) <> Ok "(no data)".
Proof.
  destruct (cmd42_data_details_shape a) as [-> | [-> | (n & l & Hin & ->)]];
    try discriminate.
  intros [= H]. exact (join_buttons_not_no_data n l Hin H).
Qed.

(** ** Renderer properties *)

(** C9: every detail renderer of the command table, command side and data
    side, hands both byte lists back exactly as it received them, and a
    second call on the lists it left returns the same value (string or
    fault) as the first. *)
Theorem renderers_pure cid meta :
  dict_get COMMAND_METADATA cid = Some meta ->
  forall a : Args,
    let c := command_details_generator meta in
    let d := data_details_generator meta in
    snd (c a) = a /\ fst (c (snd (c a))) = fst (c a) /\
    snd (d a) = a /\ fst (d (snd (d a))) = fst (d a) /\
    fst (d (snd (c a))) = fst (d a).
Proof.
  intros Hget a c d.
  destruct (registry_lookup_read_only cid meta Hget) as [Hc Hd].
  fold c in Hc. fold d in Hd.
  rewrite (Hc a), (Hd a). repeat split; reflexivity.
Qed.

Lemma renderers_pure_witness :
  let a := mkArgs [1; 67; 0; 1; 0] [255; 243; 90; 255; 255] in
  snd (cmd43_command_details a) = a /\
  fst (cmd43_command_details (snd (cmd43_command_details a))) =
    fst (cmd43_command_details a) /\
  snd (cmd43_data_details a) = a /\
  fst (cmd43_data_details (snd (cmd43_data_details a))) =
    fst (cmd43_data_details a) /\
  fst (cmd43_data_details (snd (cmd43_command_details a))) =
    fst (cmd43_data_details a).
Proof.
  intros a.
  exact (renderers_pure 67
           (mkCommandMetadata 67 "Enter/Exit Config Mode"
              cmd43_command_details cmd43_data_details)
           eq_refl a).
Defined.

(** C5, as the claim words it, fails: with bit 12 cleared the renderer
    returns the glyph of the table, not the word "Triangle". *)
Lemma cmd42_data_details_spec_names_counterexample :
  let a := mkArgs [1; 66; 0; 0; 0] [255; 115; 90; 255; 239] in
  nth_error (data_bytes a) 3 = Some 255 /\
  nth_error (data_bytes a) 4 = Some 239 /\
  render_mask SPEC_BUTTON_NAMES (button_mask 255 239) = "Triangle" /\
  fst (cmd42_data_details a) = Ok "🔺" /\
  fst (cmd42_data_details a) <>
    Ok (render_mask SPEC_BUTTON_NAMES (button_mask 255 239)).
Proof.
  cbv zeta. repeat split; try reflexivity. vm_compute. discriminate.
Qed.

(** C5 (amended): when the data bytes at offsets 3 and 4 exist, the Main
    Polling data renderer reads them as an active-low 16-bit mask (bits 0-7
    in the byte at offset 3, bits 8-15 in the byte at offset 4) over the
    names of [DIGITAL_BUTTONS] in bit order (the last four are the glyphs of
    the table) and returns the names of the cleared bits joined by a comma
    and a space, or "(no buttons)" when no bit is cleared; 0xFF,0xFF gives
    "(no buttons)" and 0xFE,0xFF gives "Select". *)
Theorem cmd42_data_details_buttons cb db b3 b4 :
  nth_error db 3 = Some b3 ->
  nth_error db 4 = Some b4 ->
  let a := mkArgs cb db in
  cmd42_data_details a =
    (Ok (match pressed_names DIGITAL_BUTTONS 0 (button_mask b3 b4) with
         | [] => "(no buttons)"
         | l => join ", " l
         end), a) /\
  (b3 = 255 -> b4 = 255 -> fst (cmd42_data_details a) = Ok "(no buttons)") /\
  (b3 = 254 -> b4 = 255 -> fst (cmd42_data_details a) = Ok "Select").
Proof.
  intros H3 H4 a.
  assert (Hm : cmd42_data_details a =
               (Ok (render_mask DIGITAL_BUTTONS (button_mask b3 b4)), a))
    by (apply cmd42_data_details_mask; assumption).
  split; [ exact Hm | split ]; intros -> ->; rewrite Hm; reflexivity.
Qed.

Lemma cmd42_data_details_buttons_witness :
  fst (cmd42_data_details (mkArgs [1; 66; 0; 0; 0] [255; 115; 90; 254; 255]))
  = Ok "Select".
Proof.
  destruct (cmd42_data_details_buttons [1; 66; 0; 0; 0]
              [255; 115; 90; 254; 255] 254 255 eq_refl eq_refl)
    as (_ & _ & Hselect).
  apply Hselect; reflexivity.
Defined.

(** C10: the Main Polling data renderer depends only on the data bytes at
    offsets 3 and 4: two calls whose data lists both reach offset 4 and agree
    there return the same string, whatever the command bytes and the other
    data bytes are. *)
Theorem cmd42_data_details_depends_on_3_4 cb cb' db db' b3 b4 :
  nth_error db 3 = Some b3 -> nth_error db 4 = Some b4 ->
  nth_error db' 3 = Some b3 -> nth_error db' 4 = Some b4 ->
  fst (cmd42_data_details (mkArgs cb db)) =
  fst (cmd42_data_details (mkArgs cb' db')) /\
  exists s, fst (cmd42_data_details (mkArgs cb db)) = Ok s.
Proof.
  intros H3 H4 H3' H4'.
  rewrite (cmd42_data_details_mask (mkArgs cb db) b3 b4) by assumption.
  rewrite (cmd42_data_details_mask (mkArgs cb' db') b3 b4) by assumption.
  split; [ reflexivity | eexists; reflexivity ].
Qed.

Lemma cmd42_data_details_depends_on_3_4_witness :
  fst (cmd42_data_details (mkArgs [1; 66; 0; 0; 0] [255; 115; 90; 190; 239])) =
  fst (cmd42_data_details (mkArgs [] [0; 0; 0; 190; 239; 7; 7])) /\
  exists s,
    fst (cmd42_data_details (mkArgs [1; 66; 0; 0; 0] [255; 115; 90; 190; 239]))
    = Ok s.
Proof.
  exact (cmd42_data_details_depends_on_3_4 [1; 66; 0; 0; 0] []
           [255; 115; 90; 190; 239] [0; 0; 0; 190; 239; 7; 7] 190 239
           eq_refl eq_refl eq_refl eq_refl).
Defined.

(** C6: for an Enter/Exit Config Mode transaction, the command renderer
    returns "Enter" exactly when the outgoing byte at offset 3 is 0x01 and
    "Exit" for every other value; the data renderer returns "(no data)"
    exactly when the returned byte at offset 1 is 0xF3, whatever the button
    bytes are, and otherwise does what the Main Polling data renderer does
    on the same lists. *)
Theorem cmd43_details cb db c3 d1 :
  nth_error cb 3 = Some c3 ->
  nth_error db 1 = Some d1 ->
  let a := mkArgs cb db in
  (c3 = 1 -> fst (cmd43_command_details a) = Ok "Enter") /\
  (c3 <> 1 -> fst (cmd43_command_details a) = Ok "Exit") /\
  (d1 = 243 -> fst (cmd43_data_details a) = Ok "(no data)") /\
  (fst (cmd43_data_details a) = Ok "(no data)" -> d1 = 243) /\
  (d1 <> 243 -> cmd43_data_details a = cmd42_data_details a).
Proof.
  intros H3 H1. set (a0 := mkArgs cb db). intros a. subst a.
  rename a0 into a.
  assert (Hc : fst (cmd43_command_details a) =
               Ok (if c3 =? 1 then "Enter" else "Exit")).
  { unfold cmd43_command_details, bind, command_bytes_at, getitem.
    subst a. cbn [command_bytes]. rewrite H3. reflexivity. }
  assert (Hd : cmd43_data_details a =
               if d1 =? 243 then (Ok "(no data)", a) else cmd42_data_details a).
  { unfold cmd43_data_details, bind, data_bytes_at, getitem.
    subst a. cbn [data_bytes]. rewrite H1. destruct (d1 =? 243); reflexivity. }
  repeat split.
  - intros ->. exact Hc.
  - intros Hne. rewrite Hc. apply Z.eqb_neq in Hne. rewrite Hne. reflexivity.
  - intros ->. rewrite Hd. reflexivity.
  - rewrite Hd. destruct (Z.eqb_spec d1 243) as [-> | Hne]; [ reflexivity | ].
    intros H. destruct (cmd42_data_details_not_no_data a H).
  - intros Hne. rewrite Hd. apply Z.eqb_neq in Hne. rewrite Hne. reflexivity.
Qed.

Lemma cmd43_details_witness :
  let a := mkArgs [1; 67; 0; 1; 0] [255; 243; 90; 254; 255] in
  fst (cmd43_command_details a) = Ok "Enter" /\
  fst (cmd43_data_details a) = Ok "(no data)".
Proof.
  intros a.
  destruct (cmd43_details [1; 67; 0; 1; 0] [255; 243; 90; 254; 255] 1 243
              eq_refl eq_refl) as (Henter & _ & Hconfig & _).
  split; [ apply Henter | apply Hconfig ]; reflexivity.
Defined.

(** C7: for a Switch Analog/Digital Mode transaction with the outgoing bytes
    at offsets 3 and 4 present, the command detail is "Set " followed by
    "Analog" when offset 3 is 0x01 and by "Digital" otherwise, with
    " (Locked)" appended exactly when offset 4 is 0x03; offsets 0x01,0x03
    give "Set Analog (Locked)". *)
Theorem cmd44_command_details_modes cb db c3 c4 :
  nth_error cb 3 = Some c3 ->
  nth_error cb 4 = Some c4 ->
  let r := fst (cmd44_command_details (mkArgs cb db)) in
  (c3 = 1 -> c4 = 3 -> r = Ok "Set Analog (Locked)") /\
  (c3 = 1 -> c4 <> 3 -> r = Ok "Set Analog") /\
  (c3 <> 1 -> c4 = 3 -> r = Ok "Set Digital (Locked)") /\
  (c3 <> 1 -> c4 <> 3 -> r = Ok "Set Digital").
Proof.
  intros H3 H4 r.
  assert (Hr : r = Ok ("Set " ++ (if c3 =? 1 then "Analog" else "Digital")
                         ++ (if c4 =? 3 then " (Locked)" else EmptyString))).
  { unfold r, cmd44_command_details, bind, command_bytes_at, getitem.
    cbn [command_bytes]. rewrite H3. cbn [command_bytes]. rewrite H4.
    reflexivity. }
  rewrite Hr.
  destruct (Z.eqb_spec c3 1) as [E3 | E3], (Z.eqb_spec c4 3) as [E4 | E4];
    repeat split; intros E3' E4'; solve [ reflexivity | contradiction ].
Qed.

Lemma cmd44_command_details_modes_witness :
  fst (cmd44_command_details (mkArgs [1; 68; 0; 1; 3] [])) =
  Ok "Set Analog (Locked)".
Proof.
  destruct (cmd44_command_details_modes [1; 68; 0; 1; 3] [] 1 3
              eq_refl eq_refl) as (Hlocked & _).
  apply Hlocked; reflexivity.
Defined.

(** ** The state machine *)

Lemma set_args_args_of self : set_args self (args_of self) = self.
Proof. destruct self; reflexivity. Qed.

Lemma nonempty_or_empty s : (if nonempty s then s else EmptyString) = s.
Proof. destruct s; reflexivity. Qed.

(** The renderers leave the analyzer's lists alone, so finalizing changes
    nothing in the analyzer. *)
Lemma finalize_next self start frame : next (finalize self start frame) = self.
Proof.
  unfold finalize.
  destruct (current_frame_command_id self) as [cid |]; [ | reflexivity ].
  destruct (dict_get COMMAND_METADATA cid) as [meta |] eqn:Hget;
    [ | reflexivity ].
  destruct (registry_lookup_read_only cid meta Hget) as [Hc Hd].
  specialize (Hc (args_of self)).
  destruct (command_details_generator meta (args_of self)) as [r1 a1].
  simpl in Hc; subst a1.
  specialize (Hd (args_of self)).
  destruct (data_details_generator meta (args_of self)) as [r2 a2].
  simpl in Hd; subst a2.
  rewrite set_args_args_of.
  destruct (current_controller_mode self); reflexivity.
Qed.


Lemma decode_enable self frame :
  type frame = "enable" ->
  decode self frame =
  mkDecoded (mkHla None (Some (start_time frame)) None None [] [] 0) []
            (Ok None).
Proof. intros H. unfold decode. rewrite H. reflexivity. Qed.

Lemma decode_disable self frame :
  type frame = "disable" ->
  decode self frame =
  match current_frame_start_time self with
  | Some start =>
      if type_is self "valid-command" then finalize self start frame
      else mkDecoded self [] (Ok None)
  | None => mkDecoded self [] (Ok None)
  end.
Proof. intros H. unfold decode. rewrite H. reflexivity. Qed.

Lemma decode_disable_next self frame :
  type frame = "disable" -> next (decode self frame) = self.
Proof.
  intros H. rewrite decode_disable by exact H.
  destruct (current_frame_start_time self) as [start |]; [ | reflexivity ].
  destruct (type_is self "valid-command"); [ | reflexivity ].
  apply finalize_next.
Qed.

(** Only a [result] frame at index 0 or 1 and an [enable] frame write the
    classification: past index 1 it stays as it is until the next start
    marker. *)
Lemma decode_keeps_type self frame :
  type frame <> "enable" ->
  2 <= current_frame_index self ->
  current_frame_type (next (decode self frame)) = current_frame_type self /\
  current_frame_index self <= current_frame_index (next (decode self frame)).
Proof.
  intros Hne Hidx. unfold decode.
  destruct (String.eqb_spec (type frame) "enable") as [He | _];
    [ contradiction | ].
  destruct (String.eqb_spec (type frame) "result") as [_ | _].
  - destruct (frame_int frame "mosi") as [command | e];
      [ | split; [ reflexivity | apply Z.le_refl ] ].
    destruct (frame_int frame "miso") as [data0 | e];
      [ | split; [ reflexivity | apply Z.le_refl ] ].
    destruct (Z.eqb_spec (current_frame_index self) 0) as [E0 | _]; [ lia | ].
    destruct (Z.eqb_spec (current_frame_index self) 1) as [E1 | _]; [ lia | ].
    cbn. split; [ reflexivity | lia ].
  - destruct (String.eqb_spec (type frame) "disable") as [Hd | _].
    + fold (decode self frame).
      assert (Hn : next (decode self frame) = self)
        by (apply decode_disable_next; exact Hd).
      rewrite decode_disable in Hn by exact Hd. rewrite Hn.
      split; [ reflexivity | apply Z.le_refl ].
    + split; [ reflexivity | apply Z.le_refl ].
Qed.

Lemma dict_mem_get {V} (d : list (Z * V)) k :
  dict_mem d k = true -> exists v, dict_get d k = Some v.
Proof.
  unfold dict_mem. destruct (dict_get d k) as [v |]; [ | discriminate ].
  intros _. now exists v.
Qed.

Lemma resolved_reset : resolved reset.
Proof. intros H. discriminate H. Qed.

Lemma resolved_decode self frame :
  resolved self -> resolved (next (decode self frame)).
Proof.
  intros Hres. unfold decode.
  destruct (String.eqb_spec (type frame) "enable") as [_ | _].
  { intros H. discriminate H. }
  destruct (String.eqb_spec (type frame) "result") as [_ | _].
  - destruct (frame_int frame "mosi") as [command | e]; [ | exact Hres ].
    destruct (frame_int frame "miso") as [data0 | e]; [ | exact Hres ].
    destruct ((current_frame_index self =? 0) && negb (command =? 1)).
    { intros H. discriminate H. }
    destruct (current_frame_index self =? 1).
    + destruct (dict_mem COMMAND_METADATA command) eqn:Hmem; cbn [negb].
      * destruct (dict_mem_get _ _ Hmem) as [meta Hget].
        intros _. exists command, meta, data0. cbn. auto.
      * intros H. discriminate H.
    + destruct self; exact Hres.
  - destruct (String.eqb_spec (type frame) "disable") as [Hd | _];
      [ | exact Hres ].
    fold (decode self frame).
    assert (Hn : next (decode self frame) = self)
      by (apply decode_disable_next; exact Hd).
    rewrite decode_disable in Hn by exact Hd. rewrite Hn. exact Hres.
Qed.

Lemma resolved_final frames :
  forall self, resolved self -> resolved (final self frames).
Proof.
  induction frames as [| f r IH]; intros self Hres; [ exact Hres | ].
  apply IH. apply resolved_decode. exact Hres.
Qed.

Lemma type_is_eq self t :
  current_frame_type self = Some t -> type_is self t = true.
Proof.
  intros H. unfold type_is. rewrite H. apply String.eqb_refl.
Qed.

(** A rejected transaction stays rejected and silent until the next start
    marker. *)
Lemma rejected_decode self frame :
  type frame <> "enable" ->
  rejected self ->
  rejected (next (decode self frame)) /\ silent (decode self frame).
Proof.
  intros Hne [Htype Hidx].
  destruct (decode_keeps_type self frame Hne Hidx) as [Ht Hi].
  split; [ split; [ congruence | lia ] | ].
  unfold decode.
  destruct (String.eqb_spec (type frame) "enable") as [He | _];
    [ contradiction | ].
  destruct (String.eqb_spec (type frame) "result") as [_ | _].
  - destruct (frame_int frame "mosi") as [command | e];
      [ | split; reflexivity ].
    destruct (frame_int frame "miso") as [data0 | e]; split; reflexivity.
  - destruct (String.eqb_spec (type frame) "disable") as [_ | _];
      [ | split; reflexivity ].
    unfold type_is. rewrite Htype.
    destruct (current_frame_start_time self); split; reflexivity.
Qed.

Lemma rejected_run frames :
  forall self,
    Forall (fun f => type f <> "enable") frames ->
    rejected self ->
    Forall silent (run self frames).
Proof.
  induction frames as [| f r IH]; intros self Hall Hrej; simpl.
  - constructor.
  - inversion Hall as [| ? ? Hf Hr]; subst.
    destruct (rejected_decode self f Hf Hrej) as [Hrej' Hsilent].
    constructor; [ exact Hsilent | apply IH; assumption ].
Qed.

Lemma decode_result self t t' mosi miso :
  decode self (result_frame t t' mosi miso) =
  let command := int_from_bytes_big mosi in
  let data0 := int_from_bytes_big miso in
  let self1 :=
    if (current_frame_index self =? 0) && negb (command =? 1) then
      set_type self "invalid-packet"
    else if current_frame_index self =? 1 then
      let self := set_command self command data0 in
      if negb (dict_mem COMMAND_METADATA command) then
        set_type self "invalid-command"
      else
        set_type self "valid-command"
    else self in
  let self2 := append_bytes self1 command data0 in
  mkDecoded (set_index self2 (current_frame_index self2 + 1)) [] (Ok None).
Proof. reflexivity. Qed.

(** C8: in a transaction whose first console byte is 0x01 and whose second
    console byte is not an id of the command table, no call of [decode]
    emits an annotation or calls a detail renderer, from the start marker up
    to and including the end marker and any frame that follows before the
    next start marker. *)
Theorem unknown_command_silent self t0 ta tb tc td mosi0 miso0 mosi1 miso1 rest :
  int_from_bytes_big mosi0 = 1 ->
  dict_mem COMMAND_METADATA (int_from_bytes_big mosi1) = false ->
  Forall (fun f => type f <> "enable") rest ->
  Forall silent
    (run self (enable_frame t0
               :: result_frame ta tb mosi0 miso0
               :: result_frame tc td mosi1 miso1
               :: rest)).
Proof.
  intros Hheader Hunknown Hrest.
  cbn [run]. rewrite (decode_enable self (enable_frame t0)) by reflexivity.
  cbn [next].
  constructor; [ split; reflexivity | ].
  rewrite decode_result. cbn [next current_frame_index].
  rewrite Hheader. cbn [Z.eqb Pos.eqb negb andb].
  constructor; [ split; reflexivity | ].
  rewrite decode_result. cbn [next set_index append_bytes set_args current_frame_index].
  cbn [Z.eqb Pos.eqb negb andb]. rewrite Hunknown. cbn [negb].
  constructor; [ split; reflexivity | ].
  apply rejected_run; [ exact Hrest | ].
  split; [ reflexivity | cbn; lia ].
Qed.

Lemma unknown_command_silent_witness :
  Forall silent
    (run reset
       (enable_frame (GraphTimeAt 0)
        :: result_frame (GraphTimeAt 1) (GraphTimeAt 2) (word 1) (word 255)
        :: result_frame (GraphTimeAt 3) (GraphTimeAt 4) (word 80) (word 115)
        :: [result_frame (GraphTimeAt 5) (GraphTimeAt 6) (word 0) (word 90);
            disable_frame (GraphTimeAt 7)])).
Proof.
  apply unknown_command_silent.
  - reflexivity.
  - reflexivity.
  - repeat constructor; discriminate.
Defined.

(** C4: when an end marker finalizes a transaction classified as a valid
    command, the annotation is emitted whatever the two renderers do; each
    detail is the string its own renderer returned on the accumulated lists,
    or "(error)" when that renderer raised, so a fault on one side leaves the
    other side's detail as it is.  (The command detail is stored behind the
    separator " - " when it is not empty.) *)
Theorem finalize_details frames frame start :
  type frame = "disable" ->
  current_frame_start_time (final reset frames) = Some start ->
  current_frame_type (final reset frames) = Some "valid-command" ->
  let self := final reset frames in
  exists cid meta ann,
    current_frame_command_id self = Some cid /\
    dict_get COMMAND_METADATA cid = Some meta /\
    returned (decode self frame) = Ok (Some ann) /\
    next (decode self frame) = self /\
    let c := fst (command_details_generator meta (args_of self)) in
    let d := fst (data_details_generator meta (args_of self)) in
    field ann "command_details" =
      Some (if nonempty (or_error c) then " - " ++ or_error c else EmptyString) /\
    field ann "data_details" = Some (or_error d) /\
    (forall e, c = Raise e -> field ann "command_details" = Some " - (error)") /\
    (forall e, d = Raise e -> field ann "data_details" = Some "(error)").
Proof.
  intros Hdis Hstart Htype self.
  assert (Hvalid : type_is self "valid-command" = true)
    by (apply type_is_eq; exact Htype).
  destruct (resolved_final frames reset resolved_reset Hvalid)
    as (cid & meta & mode & Hcid & Hget & Hmode).
  fold self in Hcid, Hmode, Hstart.
  destruct (registry_lookup_read_only cid meta Hget) as [Hc _].
  specialize (Hc (args_of self)).
  assert (Hnext : next (decode self frame) = self)
    by (apply decode_disable_next; exact Hdis).
  revert Hnext. rewrite (decode_disable self frame Hdis).
  rewrite Hstart, Hvalid. unfold finalize. rewrite Hcid, Hget, Hmode.
  destruct (command_details_generator meta (args_of self)) as [r1 a1] eqn:E1.
  simpl in Hc; subst a1.
  destruct (data_details_generator meta (args_of self)) as [r2 a2] eqn:E2.
  cbn [next returned fst]. intros Hnext.
  eexists cid, meta, _.
  split; [ reflexivity | ]. split; [ exact Hget | ].
  split; [ reflexivity | ]. split; [ exact Hnext | ].
  cbv zeta. rewrite E1, E2. cbn [fst].
  unfold field. cbn [data data_get String.eqb Ascii.eqb Bool.eqb].
  rewrite nonempty_or_empty.
  split; [ reflexivity | ]. split; [ reflexivity | ].
  split; intros e ->; reflexivity.
Qed.

Lemma finalize_details_witness :
  let frames :=
    [enable_frame (GraphTimeAt 0);
     result_frame (GraphTimeAt 1) (GraphTimeAt 2) (word 1) (word 255);
     result_frame (GraphTimeAt 3) (GraphTimeAt 4) (word 68) (word 115)] in
  exists ann,
    returned (decode (final reset frames) (disable_frame (GraphTimeAt 5)))
    = Ok (Some ann) /\
    field ann "command_details" = Some " - (error)" /\
    field ann "data_details" = Some "(...)".
Proof.
  intros frames.
  destruct (finalize_details frames (disable_frame (GraphTimeAt 5))
              (GraphTimeAt 0) eq_refl eq_refl eq_refl)
    as (cid & meta & ann & Hcid & Hget & Hret & _ & Hc & Hd & _).
  injection Hcid as <-. injection Hget as <-.
  exists ann. split; [ exact Hret | split; [ exact Hc | exact Hd ] ].
Defined.






(** C1 fails on the code: a transaction whose first console byte is 0x00 and
    whose second console byte is the Main Polling id 0x42 is annotated at
    its end marker, because the index-1 event overwrites the
    "invalid-packet" classification. *)
Theorem bad_header_still_annotated :
  let frames :=
    transaction (GraphTimeAt 0) (GraphTimeAt 5)
      [(word 0, word 255); (word 66, word 115); (word 0, word 90);
       (word 0, word 254); (word 0, word 255)] in
  int_from_bytes_big (word 0) <> 1 /\
  map returned (run reset frames) =
    [Ok None; Ok None; Ok None; Ok None; Ok None; Ok None;
     Ok (Some (mkAnalyzerFrame "valid-command" (GraphTimeAt 0) (GraphTimeAt 5)
                 [("mode_string", Str "Analog"); ("mode_id", Str "73");
                  ("command_name", Str "Main Polling");
                  ("command_id", Str "42"); ("command_details", Str EmptyString);
                  ("data_details", Str "Select")]))].
Proof.
  cbv zeta. split; [ vm_compute; discriminate | vm_compute; reflexivity ].
Qed.

(** C2 fails on the code: the classification written at index 0
    ("invalid-packet") is replaced at index 1 by the classification of the
    command id. *)
Theorem invalid_packet_overwritten :
  let first := result_frame (GraphTimeAt 1) (GraphTimeAt 2) (word 0) (word 255) in
  let second := result_frame (GraphTimeAt 3) (GraphTimeAt 4) (word 66) (word 115) in
  let third := result_frame (GraphTimeAt 5) (GraphTimeAt 6) (word 0) (word 90) in
  current_frame_type (final reset [enable_frame (GraphTimeAt 0); first])
    = Some "invalid-packet" /\
  current_frame_type (final reset [enable_frame (GraphTimeAt 0); first; second])
    = Some "valid-command" /\
  current_frame_type
    (final reset [enable_frame (GraphTimeAt 0); first; second; third])
    = Some "valid-command".
Proof.
  cbv zeta. repeat split; vm_compute; reflexivity.
Qed.

(** ** Faults of the renderers *)

Lemma nth_error_in_range {A} (l : list A) i :
  (i < List.length l)%nat -> exists x, nth_error l i = Some x.
Proof.
  intros Hlt. destruct (nth_error l i) as [x |] eqn:E; [ now exists x | ].
  apply nth_error_None in E. lia.
Qed.

Lemma nth_error_short {A} (l : list A) i x :
  nth_error l i = Some x -> (i < List.length l)%nat.
Proof.
  intros E. apply nth_error_Some. rewrite E. discriminate.
Qed.

(** Evaluate a renderer whose reads are described by hypotheses on
    [nth_error]. *)
Ltac eval_render :=
  unfold bind, command_bytes_at, data_bytes_at, getitem, ret;
  cbn [command_bytes data_bytes fst snd];
  repeat match goal with
         | H : nth_error ?l ?i = _ |- context [nth_error ?l ?i] =>
             rewrite H; cbn [command_bytes data_bytes fst snd]
         end.

(** Past its first eight items the loop reads the byte at offset 4, so it
    faults when that byte is missing, whatever the byte at offset 3 is. *)
Lemma cmd42_data_loop_short a :
  nth_error (data_bytes a) 4 = None ->
  forall names i acc,
    names <> [] ->
    0 <= i -> 8 < i + Z.of_nat (List.length names) ->
    fst (cmd42_data_loop (enumerate_from i names) acc a) = Raise IndexError.
Proof.
  intros H4. induction names as [| n r IH]; intros i acc Hne Hi Hlen.
  - contradiction.
  - cbn [List.length] in Hlen.
    cbn [enumerate_from cmd42_data_loop].
    unfold bind, data_bytes_at, getitem.
    destruct (Z.ltb_spec i 8) as [Hlt | Hge].
    + destruct (nth_error (data_bytes a) 3) as [b3 |]; [ | reflexivity ].
      assert (Hr : r <> []) by (destruct r; [ cbn in Hlen; lia | discriminate ]).
      destruct (Z.land b3 (Z.shiftl 1 (i mod 8)) =? 0); apply IH; lia || exact Hr.
    + rewrite H4. reflexivity.
Qed.

Lemma cmd42_data_details_short a :
  nth_error (data_bytes a) 4 = None ->
  fst (cmd42_data_details a) = Raise IndexError.
Proof.
  intros H4. unfold cmd42_data_details, bind, enumerate.
  pose proof (cmd42_data_loop_short a H4 DIGITAL_BUTTONS 0 []) as Hloop.
  destruct (cmd42_data_loop (enumerate_from 0 DIGITAL_BUTTONS) [] a)
    as [r a'].
  cbn [fst] in Hloop. rewrite Hloop by (cbn; lia || discriminate). reflexivity.
Qed.

Lemma cmd42_command_details_eval cb db c3 c4 :
  nth_error cb 3 = Some c3 ->
  nth_error cb 4 = Some c4 ->
  fst (cmd42_command_details (mkArgs cb db)) =
  Ok (if (c3 =? 0) && (c4 =? 0) then EmptyString
      else "Small Motor " ++ str_bool (c3 =? 255)
           ++ ", Large Motor " ++ str_bool (c4 >=? 64)).
Proof.
  intros H3 H4. unfold cmd42_command_details, truthy. eval_render.
  destruct (c3 =? 0) eqn:E3; cbn [negb andb]; eval_render.
  - destruct (c4 =? 0) eqn:E4; cbn [negb]; eval_render; reflexivity.
  - rewrite E3. cbn [negb]. eval_render. reflexivity.
Qed.

Lemma cmd42_command_details_short cb db :
  nth_error cb 4 = None ->
  fst (cmd42_command_details (mkArgs cb db)) = Raise IndexError.
Proof.
  intros H4. unfold cmd42_command_details, truthy. eval_render.
  destruct (nth_error cb 3) as [c3 |] eqn:H3; [ | reflexivity ].
  cbn [fst snd]. destruct (c3 =? 0) eqn:E; cbn [negb]; eval_render.
  - reflexivity.
  - rewrite E. cbn [negb]. eval_render. reflexivity.
Qed.

(** Each generator of the table, on lists that reach offset 4, returns. *)
Ltac short_or_ok cb H3 H4 :=
  destruct (nth_error cb 4) as [?c4 |] eqn:H4;
  [ destruct (nth_error_in_range cb 3) as [?c3 H3];
    [ apply nth_error_short in H4; lia | ]
  | ].

Lemma command_fault_short (g : Render string) cb db e :
  In g [command_empty_details; cmd42_command_details; cmd43_command_details;
        cmd44_command_details; cmd46_command_details; cmd4c_command_details;
        cmd4d_command_details] ->
  fst (g (mkArgs cb db)) = Raise e ->
  e = IndexError /\ (List.length cb < 5)%nat.
Proof.
  intros Hin.
  assert (Hshort : nth_error cb 4 = None -> (List.length cb < 5)%nat)
    by (intros H; apply nth_error_None in H; lia).
  assert (Hshort3 : nth_error cb 3 = None -> (List.length cb < 5)%nat)
    by (intros H; apply nth_error_None in H; lia).
  cbn [In] in Hin.
  destruct Hin as [<- | [<- | [<- | [<- | [<- | [<- | [<- | []]]]]]]].
  - discriminate.
  - short_or_ok cb H3 H4.
    + rewrite (cmd42_command_details_eval cb db c3 c4 H3 H4). discriminate.
    + rewrite (cmd42_command_details_short cb db H4).
      intros [= <-]. auto.
  - unfold cmd43_command_details.
    destruct (nth_error cb 3) as [c3 |] eqn:H3; eval_render.
    + discriminate.
    + intros [= <-]. auto.
  - unfold cmd44_command_details.
    destruct (nth_error cb 3) as [c3 |] eqn:H3; eval_render;
      [ | intros [= <-]; auto ].
    destruct (nth_error cb 4) as [c4 |] eqn:H4; eval_render;
      [ discriminate | intros [= <-]; auto ].
  - unfold cmd46_command_details.
    destruct (nth_error cb 3) as [c3 |] eqn:H3; eval_render.
    + destruct (c3 =? 0); [ discriminate | ].
      destruct (c3 =? 1); discriminate.
    + intros [= <-]. auto.
  - unfold cmd4c_command_details, cmd46_command_details.
    destruct (nth_error cb 3) as [c3 |] eqn:H3; eval_render.
    + destruct (c3 =? 0); [ discriminate | ].
      destruct (c3 =? 1); discriminate.
    + intros [= <-]. auto.
  - unfold cmd4d_command_details.
    destruct (nth_error cb 3) as [c3 |] eqn:H3; eval_render;
      [ | intros [= <-]; auto ].
    destruct (nth_error cb 4) as [c4 |] eqn:H4; eval_render;
      [ discriminate | intros [= <-]; auto ].
Qed.

Lemma cmd42_data_fault_short cb db e :
  fst (cmd42_data_details (mkArgs cb db)) = Raise e ->
  e = IndexError /\ (List.length db < 5)%nat.
Proof.
  short_or_ok db H3 H4.
  - rewrite (cmd42_data_details_mask (mkArgs cb db) c3 c4 H3 H4). discriminate.
  - rewrite (cmd42_data_details_short (mkArgs cb db) H4).
    intros [= <-]. split; [ reflexivity | ].
    apply nth_error_None in H4. lia.
Qed.

Lemma cmd43_data_details_eval cb db :
  cmd43_data_details (mkArgs cb db) =
  match nth_error db 1 with
  | None => (Raise IndexError, mkArgs cb db)
  | Some d1 =>
      if d1 =? 243 then (Ok "(no data)", mkArgs cb db)
      else cmd42_data_details (mkArgs cb db)
  end.
Proof.
  unfold cmd43_data_details.
  destruct (nth_error db 1) as [d1 |] eqn:H1; eval_render; [ | reflexivity ].
  destruct (d1 =? 243); reflexivity.
Qed.

Lemma data_fault_short (g : Render string) cb db e :
  In g [data_empty_details; cmd42_data_details; cmd43_data_details] ->
  fst (g (mkArgs cb db)) = Raise e ->
  e = IndexError /\ (List.length db < 5)%nat.
Proof.
  intros Hin. cbn [In] in Hin. destruct Hin as [<- | [<- | [<- | []]]].
  - discriminate.
  - apply cmd42_data_fault_short.
  - rewrite cmd43_data_details_eval.
    destruct (nth_error db 1) as [d1 |] eqn:H1.
    + destruct (d1 =? 243); [ discriminate | apply cmd42_data_fault_short ].
    + intros [= <-]. split; [ reflexivity | ].
      apply nth_error_None in H1. lia.
Qed.

Lemma registry_generators :
  Forall (fun entry =>
            In (command_details_generator (snd entry))
               [command_empty_details; cmd42_command_details;
                cmd43_command_details; cmd44_command_details;
                cmd46_command_details; cmd4c_command_details;
                cmd4d_command_details] /\
            In (data_details_generator (snd entry))
               [data_empty_details; cmd42_data_details; cmd43_data_details] /\
            id (snd entry) = fst entry)
         COMMAND_METADATA.
Proof.
  unfold COMMAND_METADATA.
  repeat (apply Forall_cons;
          [ cbn [snd fst command_details_generator data_details_generator id];
            split; [ | split; [ | reflexivity ] ]; cbn [In]; tauto | ]).
  apply Forall_nil.
Qed.

Lemma registry_lookup cid meta :
  dict_get COMMAND_METADATA cid = Some meta ->
  In (command_details_generator meta)
     [command_empty_details; cmd42_command_details;
      cmd43_command_details; cmd44_command_details;
      cmd46_command_details; cmd4c_command_details;
      cmd4d_command_details] /\
  In (data_details_generator meta)
     [data_empty_details; cmd42_data_details; cmd43_data_details] /\
  id meta = cid.
Proof.
  intros H. apply dict_get_In in H.
  pose proof registry_generators as HF.
  rewrite Forall_forall in HF. apply (HF _ H).
Qed.

(** ** More on the button mask *)

Lemma land_255_all_set b :
  Z.land b 255 = 255 <-> forall i, 0 <= i < 8 -> Z.testbit b i = true.
Proof.
  change 255 with (Z.ones 8). split.
  - intros H i Hi.
    assert (Hb : Z.testbit (Z.land b (Z.ones 8)) i = true)
      by (rewrite H; apply Z.ones_spec_low; lia).
    rewrite Z.land_spec in Hb. apply andb_prop in Hb. tauto.
  - intros H. apply Z.bits_inj'. intros n Hn.
    rewrite Z.land_spec.
    destruct (Z.ltb_spec n 8) as [Hlt | Hge].
    + rewrite H by lia. reflexivity.
    + rewrite Z.ones_spec_high by lia. apply andb_false_r.
Qed.

Lemma pressed_names_nil names mask :
  forall i,
    pressed_names names i mask = [] <->
    forall j, 0 <= j < Z.of_nat (List.length names) ->
              Z.testbit mask (i + j) = true.
Proof.
  induction names as [| n r IH]; intros i; cbn [pressed_names List.length].
  - split; [ intros _ j Hj; lia | reflexivity ].
  - destruct (Z.testbit mask i) eqn:Hb.
    + rewrite IH. split.
      * intros H j Hj. destruct (Z.eq_dec j 0) as [-> | Hne].
        -- rewrite Z.add_0_r. exact Hb.
        -- replace (i + j) with (i + 1 + (j - 1)) by lia. apply H. lia.
      * intros H j Hj. replace (i + 1 + j) with (i + (j + 1)) by lia.
        apply H. lia.
    + split; [ discriminate | ].
      intros H. specialize (H 0). rewrite Z.add_0_r, Hb in H.
      assert (false = true) by (apply H; lia). discriminate.
Qed.

Lemma pressed_names_incl names mask :
  forall i, incl (pressed_names names i mask) names.
Proof.
  induction names as [| n r IH]; intros i; cbn [pressed_names].
  - apply incl_refl.
  - destruct (Z.testbit mask i).
    + apply incl_tl, IH.
    + apply incl_cons; [ now left | apply incl_tl, IH ].
Qed.

(** A joined list of button names never starts with a parenthesis. *)
Lemma join_buttons_not_no_buttons n l :
  In n DIGITAL_BUTTONS -> join ", " (n :: l) <> "(no buttons)".
Proof.
  unfold DIGITAL_BUTTONS. intros Hin.
  repeat (destruct Hin as [<- | Hin];
          [ destruct l; simpl; discriminate | ]).
  destruct Hin.
Qed.

Lemma button_mask_all_set b3 b4 :
  (forall j, 0 <= j < 16 -> Z.testbit (button_mask b3 b4) (0 + j) = true) <->
  Z.land b3 255 = 255 /\ Z.land b4 255 = 255.
Proof.
  rewrite !land_255_all_set. split.
  - intros H. split; intros i Hi.
    + rewrite <- (button_mask_low b3 b4) by lia. apply (H i). lia.
    + replace i with (i + 8 - 8) by lia.
      rewrite <- (button_mask_high b3 b4) by lia. apply (H (i + 8)). lia.
  - intros [H3 H4] j Hj. cbn [Z.add].
    destruct (Z.ltb_spec j 8) as [Hlt | Hge].
    + rewrite button_mask_low by lia. apply H3. lia.
    + rewrite button_mask_high by lia. apply H4. lia.
Qed.

Lemma button_mask_mod b3 b4 b3' b4' :
  b3 mod 256 = b3' mod 256 -> b4 mod 256 = b4' mod 256 ->
  button_mask b3 b4 = button_mask b3' b4'.
Proof.
  intros E3 E4. unfold button_mask.
  change 255 with (Z.ones 8). rewrite !Z.land_ones by lia.
  change (2 ^ 8) with 256. rewrite E3, E4. reflexivity.
Qed.

(** ** Further renderer properties *)

(** X1: with the outgoing bytes at offsets 3 and 4 present, the Main Polling
    command renderer returns the empty string when both are zero, and
    otherwise reports the small motor as [byte 3 == 0xFF] and the large
    motor as [byte 4 >= 0x40], printed as Python booleans. *)
Theorem cmd42_command_details_motors cb db c3 c4 :
  nth_error cb 3 = Some c3 ->
  nth_error cb 4 = Some c4 ->
  let r := fst (cmd42_command_details (mkArgs cb db)) in
  (c3 = 0 -> c4 = 0 -> r = Ok EmptyString) /\
  (c3 <> 0 \/ c4 <> 0 ->
   r = Ok ("Small Motor " ++ (if c3 =? 255 then "True" else "False")
           ++ ", Large Motor " ++ (if 64 <=? c4 then "True" else "False"))).
Proof.
  intros H3 H4 r. unfold r.
  rewrite (cmd42_command_details_eval cb db c3 c4 H3 H4).
  split.
  - intros -> ->. reflexivity.
  - intros Hnz.
    assert (E : (c3 =? 0) && (c4 =? 0) = false).
    { apply andb_false_iff.
      destruct Hnz as [H | H]; [ left | right ]; apply Z.eqb_neq; exact H. }
    rewrite E. unfold str_bool. rewrite Z.geb_leb. reflexivity.
Qed.

Lemma cmd42_command_details_motors_witness :
  fst (cmd42_command_details (mkArgs [1; 66; 0; 255; 64] [])) =
  Ok "Small Motor True, Large Motor True".
Proof.
  destruct (cmd42_command_details_motors [1; 66; 0; 255; 64] [] 255 64
              eq_refl eq_refl) as (_ & Hmotors).
  apply Hmotors. left. discriminate.
Defined.

(** X2: the Main Polling command renderer raises exactly when there are
    fewer than five outgoing bytes, and then it raises [IndexError]: a
    non-zero byte at offset 3 decides the test alone, but the byte at offset
    4 is read all the same. *)
Theorem cmd42_command_details_faults cb db :
  let r := fst (cmd42_command_details (mkArgs cb db)) in
  ((List.length cb < 5)%nat -> r = Raise IndexError) /\
  (forall e, r = Raise e -> e = IndexError /\ (List.length cb < 5)%nat).
Proof.
  intros r. split.
  - intros Hlen. apply cmd42_command_details_short.
    apply nth_error_None. lia.
  - intros e. apply command_fault_short. cbn [In]. tauto.
Qed.

Lemma cmd42_command_details_faults_witness :
  fst (cmd42_command_details (mkArgs [1; 66; 0; 255] [])) = Raise IndexError.
Proof.
  destruct (cmd42_command_details_faults [1; 66; 0; 255] []) as (Hshort & _).
  apply Hshort. cbn. lia.
Defined.

(** X3: a generator of the command table can only fail with [IndexError],
    and only on a short list: a command-side generator when fewer than five
    outgoing bytes were accumulated, a data-side generator when fewer than
    five returned bytes were.  On a transaction of five or more byte pairs
    both generators of every descriptor return a string. *)
Theorem registry_faults_only_when_short cid meta cb db :
  dict_get COMMAND_METADATA cid = Some meta ->
  let a := mkArgs cb db in
  (forall e, fst (command_details_generator meta a) = Raise e ->
             e = IndexError /\ (List.length cb < 5)%nat) /\
  (forall e, fst (data_details_generator meta a) = Raise e ->
             e = IndexError /\ (List.length db < 5)%nat) /\
  ((5 <= List.length cb)%nat ->
   exists s, fst (command_details_generator meta a) = Ok s) /\
  ((5 <= List.length db)%nat ->
   exists s, fst (data_details_generator meta a) = Ok s).
Proof.
  intros Hget a.
  destruct (registry_lookup cid meta Hget) as (Hc & Hd & _).
  assert (Fc : forall e, fst (command_details_generator meta a) = Raise e ->
                         e = IndexError /\ (List.length cb < 5)%nat)
    by (intros e; apply command_fault_short; exact Hc).
  assert (Fd : forall e, fst (data_details_generator meta a) = Raise e ->
                         e = IndexError /\ (List.length db < 5)%nat)
    by (intros e; apply data_fault_short; exact Hd).
  split; [ exact Fc | split; [ exact Fd | split ] ]; intros Hlen.
  - destruct (fst (command_details_generator meta a)) as [s | e] eqn:E.
    + now exists s.
    + destruct (Fc e eq_refl) as [_ Hshort]. lia.
  - destruct (fst (data_details_generator meta a)) as [s | e] eqn:E.
    + now exists s.
    + destruct (Fd e eq_refl) as [_ Hshort]. lia.
Qed.

Lemma registry_faults_only_when_short_witness :
  let a := mkArgs [1; 77; 0; 0; 1] [255; 115; 90; 255; 255] in
  (exists s, fst (cmd4d_command_details a) = Ok s) /\
  (exists s, fst (data_empty_details a) = Ok s).
Proof.
  intros a.
  destruct (registry_faults_only_when_short 77
              (mkCommandMetadata 77 "Map Rumble Motors"
                 cmd4d_command_details data_empty_details)
              [1; 77; 0; 0; 1] [255; 115; 90; 255; 255] eq_refl)
    as (_ & _ & Hc & Hd).
  split; [ apply Hc | apply Hd ]; cbn; lia.
Defined.

(** X4: the Main Polling data renderer raises exactly when there are fewer
    than five returned bytes, and then it raises [IndexError]; in particular
    four returned bytes are not enough even though the first eight buttons
    only need the byte at offset 3. *)
Theorem cmd42_data_details_faults cb db :
  let r := fst (cmd42_data_details (mkArgs cb db)) in
  ((List.length db < 5)%nat -> r = Raise IndexError) /\
  (forall e, r = Raise e -> e = IndexError /\ (List.length db < 5)%nat).
Proof.
  intros r. split.
  - intros Hlen. apply cmd42_data_details_short.
    apply nth_error_None. cbn [data_bytes]. lia.
  - intros e. apply cmd42_data_fault_short.
Qed.

Lemma cmd42_data_details_faults_witness :
  fst (cmd42_data_details (mkArgs [] [255; 115; 90; 254])) = Raise IndexError.
Proof.
  destruct (cmd42_data_details_faults [] [255; 115; 90; 254]) as (Hshort & _).
  apply Hshort. cbn. lia.
Defined.

(** X5: the Enter/Exit Config Mode data renderer raises exactly when the
    returned byte at offset 1 is missing, or is not 0xF3 while fewer than
    five returned bytes are there: a reply in configuration mode is rendered
    from two bytes alone. *)
Theorem cmd43_data_details_faults cb db :
  let r := fst (cmd43_data_details (mkArgs cb db)) in
  (exists e, r = Raise e) <->
  (List.length db < 2)%nat \/
  (nth_error db 1 <> Some 243 /\ (List.length db < 5)%nat).
Proof.
  intros r. unfold r. rewrite cmd43_data_details_eval.
  destruct (nth_error db 1) as [d1 |] eqn:H1.
  - pose proof (nth_error_short db 1 d1 H1) as Hlen.
    destruct (Z.eqb_spec d1 243) as [-> | Hne].
    + split.
      * intros [e He]. discriminate He.
      * intros [Hshort | [Hx _]]; [ lia | contradiction ].
    + split.
      * intros [e He]. right. split; [ congruence | ].
        apply (cmd42_data_fault_short cb db e He).
      * intros [Hshort | [_ Hshort]]; [ lia | ].
        exists IndexError. apply cmd42_data_details_short.
        apply nth_error_None. cbn [data_bytes]. lia.
  - apply nth_error_None in H1. split.
    + intros _. left. lia.
    + intros _. exists IndexError. reflexivity.
Qed.

Lemma cmd43_data_details_faults_witness :
  (exists e, fst (cmd43_data_details (mkArgs [] [255; 115])) = Raise e) /\
  fst (cmd43_data_details (mkArgs [] [255; 243])) = Ok "(no data)".
Proof.
  split; [ | reflexivity ].
  apply (proj2 (cmd43_data_details_faults [] [255; 115])).
  right. split; [ discriminate | cbn; lia ].
Defined.

(** X6: with the returned bytes at offsets 3 and 4 present, the Main Polling
    data renderer returns "(no buttons)" exactly when the low eight bits of
    both bytes are all set; bits above the eighth play no part. *)
Theorem cmd42_data_details_no_buttons_iff cb db b3 b4 :
  nth_error db 3 = Some b3 ->
  nth_error db 4 = Some b4 ->
  fst (cmd42_data_details (mkArgs cb db)) = Ok "(no buttons)" <->
  Z.land b3 255 = 255 /\ Z.land b4 255 = 255.
Proof.
  intros H3 H4.
  rewrite (cmd42_data_details_mask (mkArgs cb db) b3 b4 H3 H4).
  cbn [fst]. rewrite <- button_mask_all_set.
  change 16 with (Z.of_nat (List.length DIGITAL_BUTTONS)).
  rewrite <- pressed_names_nil. unfold render_mask.
  pose proof (pressed_names_incl DIGITAL_BUTTONS (button_mask b3 b4) 0) as Hin.
  destruct (pressed_names DIGITAL_BUTTONS 0 (button_mask b3 b4)) as [| n l].
  - split; reflexivity.
  - split; [ | discriminate ].
    intros [= H]. exfalso.
    apply (join_buttons_not_no_buttons n l); [ apply Hin; now left | exact H ].
Qed.

Lemma cmd42_data_details_no_buttons_iff_witness :
  fst (cmd42_data_details (mkArgs [] [255; 115; 90; 511; 1023])) =
  Ok "(no buttons)".
Proof.
  apply (proj2 (cmd42_data_details_no_buttons_iff []
                  [255; 115; 90; 511; 1023] 511 1023 eq_refl eq_refl)).
  split; reflexivity.
Defined.

(** X7: the Main Polling data renderer only looks at the low eight bits of
    the returned bytes at offsets 3 and 4: two data lists whose bytes there
    agree modulo 256 are rendered alike. *)
Theorem cmd42_data_details_low_bits cb cb' db db' b3 b4 b3' b4' :
  nth_error db 3 = Some b3 -> nth_error db 4 = Some b4 ->
  nth_error db' 3 = Some b3' -> nth_error db' 4 = Some b4' ->
  b3 mod 256 = b3' mod 256 ->
  b4 mod 256 = b4' mod 256 ->
  fst (cmd42_data_details (mkArgs cb db)) =
  fst (cmd42_data_details (mkArgs cb' db')).
Proof.
  intros H3 H4 H3' H4' E3 E4.
  rewrite (cmd42_data_details_mask (mkArgs cb db) b3 b4 H3 H4).
  rewrite (cmd42_data_details_mask (mkArgs cb' db') b3' b4' H3' H4').
  rewrite (button_mask_mod b3 b4 b3' b4' E3 E4). reflexivity.
Qed.

Lemma cmd42_data_details_low_bits_witness :
  fst (cmd42_data_details (mkArgs [] [255; 115; 90; 254; 255])) =
  fst (cmd42_data_details (mkArgs [] [0; 0; 0; 510; 767])).
Proof.
  exact (cmd42_data_details_low_bits [] [] [255; 115; 90; 254; 255]
           [0; 0; 0; 510; 767] 254 255 510 767
           eq_refl eq_refl eq_refl eq_refl eq_refl eq_refl).
Defined.

(** X8: the Device Descriptor byte selector (ids 0x46 and 0x4C share it)
    reads only the outgoing byte at offset 3: 0 is "First Byte", 1 is
    "Second Byte", anything else "Unknown Byte", and a missing byte raises
    [IndexError]; both ids render every input alike. *)
Theorem cmd46_command_details_selector cb db :
  let r := fst (cmd46_command_details (mkArgs cb db)) in
  (nth_error cb 3 = Some 0 -> r = Ok "First Byte") /\
  (nth_error cb 3 = Some 1 -> r = Ok "Second Byte") /\
  (forall c3, nth_error cb 3 = Some c3 -> c3 <> 0 -> c3 <> 1 ->
              r = Ok "Unknown Byte") /\
  (nth_error cb 3 = None -> r = Raise IndexError) /\
  cmd4c_command_details (mkArgs cb db) = cmd46_command_details (mkArgs cb db).
Proof.
  intros r. unfold r, cmd46_command_details.
  repeat split.
  - intros H3. eval_render. reflexivity.
  - intros H3. eval_render. reflexivity.
  - intros c3 H3 N0 N1. eval_render.
    apply Z.eqb_neq in N0, N1. rewrite N0, N1. reflexivity.
  - intros H3. eval_render. reflexivity.
Qed.

Lemma cmd46_command_details_selector_witness :
  fst (cmd46_command_details (mkArgs [1; 70; 0; 1; 0] [])) = Ok "Second Byte"
  /\
  fst (cmd4c_command_details (mkArgs [1; 76; 0; 7; 0] [])) = Ok "Unknown Byte".
Proof.
  destruct (cmd46_command_details_selector [1; 70; 0; 1; 0] [])
    as (_ & Hsecond & _).
  destruct (cmd46_command_details_selector [1; 76; 0; 7; 0] [])
    as (_ & _ & Hother & _ & Hsame).
  split.
  - apply Hsecond. reflexivity.
  - rewrite Hsame. apply (Hother 7); [ reflexivity | discriminate .. ].
Defined.

(** X9: with the outgoing bytes at offsets 3 and 4 present, the Map Rumble
    Motors renderer says "Map Small" exactly when byte 3 is 0x00 and "Map
    Large" exactly when byte 4 is 0x01 ("Unmap" otherwise), the two parts
    joined by a comma and a space. *)
Theorem cmd4d_command_details_mapping cb db c3 c4 :
  nth_error cb 3 = Some c3 ->
  nth_error cb 4 = Some c4 ->
  let r := fst (cmd4d_command_details (mkArgs cb db)) in
  (c3 = 0 -> c4 = 1 -> r = Ok "Map Small, Map Large") /\
  (c3 = 0 -> c4 <> 1 -> r = Ok "Map Small, Unmap Large") /\
  (c3 <> 0 -> c4 = 1 -> r = Ok "Unmap Small, Map Large") /\
  (c3 <> 0 -> c4 <> 1 -> r = Ok "Unmap Small, Unmap Large").
Proof.
  intros H3 H4 r. unfold r, cmd4d_command_details. eval_render.
  destruct (Z.eqb_spec c3 0) as [E3 | E3], (Z.eqb_spec c4 1) as [E4 | E4];
    repeat split; intros E3' E4'; solve [ reflexivity | contradiction ].
Qed.

Lemma cmd4d_command_details_mapping_witness :
  fst (cmd4d_command_details (mkArgs [1; 77; 0; 0; 255] [])) =
  Ok "Map Small, Unmap Large".
Proof.
  destruct (cmd4d_command_details_mapping [1; 77; 0; 0; 255] [] 0 255
              eq_refl eq_refl) as (_ & Hcase & _).
  apply Hcase; [ reflexivity | discriminate ].
Defined.

(** ** Runs *)

Lemma final_app self frames1 frames2 :
  final self (frames1 ++ frames2) = final (final self frames1) frames2.
Proof. unfold final. apply fold_left_app. Qed.

Lemma run_app frames1 :
  forall self frames2,
    run self (frames1 ++ frames2) =
    (run self frames1 ++ run (final self frames1) frames2)%list.
Proof.
  induction frames1 as [| f r IH]; intros self frames2; [ reflexivity | ].
  rewrite <- app_comm_cons. cbn [run]. cbv zeta. rewrite IH. reflexivity.
Qed.

Lemma decode_unhandled self frame :
  handled frame = false -> decode self frame = mkDecoded self [] (Ok None).
Proof.
  unfold handled, decode. intros H.
  apply orb_false_iff in H. destruct H as [H Hd].
  apply orb_false_iff in H. destruct H as [He Hr].
  rewrite He, Hr, Hd. reflexivity.
Qed.

(** ** Coherence of the analyzer's fields *)

Lemma coherent_reset : coherent reset.
Proof. repeat split. Qed.

Lemma classification_snoc c0 c1 r c :
  classification ((c0 :: c1 :: r) ++ [c]) = classification (c0 :: c1 :: r).
Proof. reflexivity. Qed.

Lemma coherent_result self command data0 :
  coherent self ->
  coherent
    (let self1 :=
       if (current_frame_index self =? 0) && negb (command =? 1) then
         set_type self "invalid-packet"
       else if current_frame_index self =? 1 then
         let self := set_command self command data0 in
         if negb (dict_mem COMMAND_METADATA command) then
           set_type self "invalid-command"
         else
           set_type self "valid-command"
       else self in
     let self2 := append_bytes self1 command data0 in
     set_index self2 (current_frame_index self2 + 1)).
Proof.
  destruct self as [ty st cid mode cb db idx].
  unfold coherent. cbn [current_frame_index current_frame_command_bytes
    current_frame_data_bytes current_frame_type current_frame_command_id
    current_controller_mode].
  intros (Hidx & Hlen & Hty & Hcid & Hmode).
  destruct cb as [| c0 [| c1 rc]]; destruct db as [| d0 [| d1 rd]];
    try discriminate Hlen; cbn [List.length] in Hidx; subst idx.
  - cbn. destruct (command =? 1) eqn:E; cbn; rewrite ?E;
      repeat split; assumption.
  - cbn. destruct (dict_mem COMMAND_METADATA command) eqn:E; cbn; rewrite ?E;
      repeat split; reflexivity.
  - replace (Z.of_nat (S (S (List.length rc))) =? 0) with false
      by (symmetry; apply Z.eqb_neq; lia).
    replace (Z.of_nat (S (S (List.length rc))) =? 1) with false
      by (symmetry; apply Z.eqb_neq; lia).
    cbn [andb]. cbv zeta.
    unfold append_bytes, set_index, set_args.
    cbn [current_frame_index current_frame_command_bytes
      current_frame_data_bytes current_frame_type current_frame_command_id
      current_controller_mode command_bytes data_bytes].
    repeat split.
    + rewrite length_app. cbn [List.length]. lia.
    + rewrite !length_app. cbn [List.length] in *. lia.
    + exact Hty.
    + exact Hcid.
    + exact Hmode.
Qed.

Lemma coherent_decode self frame :
  coherent self -> coherent (next (decode self frame)).
Proof.
  intros Hco. unfold decode.
  destruct (String.eqb_spec (type frame) "enable") as [_ | _].
  { repeat split. }
  destruct (String.eqb_spec (type frame) "result") as [_ | _].
  - destruct (frame_int frame "mosi") as [command | e]; [ | exact Hco ].
    destruct (frame_int frame "miso") as [data0 | e]; [ | exact Hco ].
    cbn [next]. apply (coherent_result self command data0 Hco).
  - destruct (String.eqb_spec (type frame) "disable") as [Hd | _];
      [ | exact Hco ].
    fold (decode self frame).
    assert (Hn : next (decode self frame) = self)
      by (apply decode_disable_next; exact Hd).
    rewrite decode_disable in Hn by exact Hd. rewrite Hn. exact Hco.
Qed.

Lemma coherent_final frames :
  forall self, coherent self -> coherent (final self frames).
Proof.
  induction frames as [| f r IH]; intros self Hco; [ exact Hco | ].
  apply IH. apply coherent_decode. exact Hco.
Qed.

(** What an end marker does on a coherent analyzer that has a start time
    and a known command id at offset 1. *)
Lemma decode_disable_valid self frame start c1 d1 meta :
  type frame = "disable" ->
  coherent self ->
  current_frame_start_time self = Some start ->
  nth_error (current_frame_command_bytes self) 1 = Some c1 ->
  nth_error (current_frame_data_bytes self) 1 = Some d1 ->
  dict_get COMMAND_METADATA c1 = Some meta ->
  decode self frame =
  mkDecoded self [(c1, CommandSide); (c1, DataSide)]
    (Ok (Some (mkAnalyzerFrame "valid-command" start (end_time frame)
      [("mode_string",
        Str (match dict_get MODE_NAMES d1 with
             | Some s => s
             | None => "Unknown Mode"
             end));
       ("mode_id", Str (format_02X d1));
       ("command_name", Str (name meta));
       ("command_id", Str (format_02X c1));
       ("command_details",
        Str (let c :=
               or_error (fst (command_details_generator meta (args_of self))) in
             if nonempty c then " - " ++ c else EmptyString));
       ("data_details",
        Str (or_error (fst (data_details_generator meta (args_of self)))))]))).
Proof.
  intros Hdis (Hidx & Hlen & Hty & Hcid & Hmode) Hstart Hc1 Hd1 Hget.
  rewrite decode_disable by exact Hdis. rewrite Hstart.
  assert (Hvalid : type_is self "valid-command" = true).
  { unfold type_is. rewrite Hty.
    destruct (current_frame_command_bytes self) as [| c0 [| c1' rc]];
      try discriminate Hc1.
    injection Hc1 as ->. unfold classification, dict_mem.
    rewrite Hget. reflexivity. }
  rewrite Hvalid. unfold finalize.
  rewrite Hcid, Hc1, Hget, Hmode, Hd1.
  destruct (registry_lookup_read_only c1 meta Hget) as [Hc Hd].
  destruct (registry_lookup c1 meta Hget) as (_ & _ & Hid).
  specialize (Hc (args_of self)). specialize (Hd (args_of self)).
  destruct (command_details_generator meta (args_of self)) as [r1 a1].
  cbn [snd] in Hc. subst a1.
  destruct (data_details_generator meta (args_of self)) as [r2 a2].
  cbn [snd] in Hd. subst a2.
  rewrite set_args_args_of, Hid. cbn [fst].
  rewrite nonempty_or_empty. reflexivity.
Qed.

(** An end marker on a coherent analyzer that is not classified as a valid
    command, or has no start time, does nothing. *)
Lemma decode_disable_quiet self frame :
  type frame = "disable" ->
  coherent self ->
  current_frame_start_time self = None \/
  (forall c1, nth_error (current_frame_command_bytes self) 1 = Some c1 ->
              dict_mem COMMAND_METADATA c1 = false) ->
  decode self frame = mkDecoded self [] (Ok None).
Proof.
  intros Hdis (Hidx & Hlen & Hty & Hcid & Hmode) Hquiet.
  rewrite decode_disable by exact Hdis.
  destruct (current_frame_start_time self) as [start |]; [ | reflexivity ].
  destruct Hquiet as [Hnone | Hunknown]; [ discriminate | ].
  unfold type_is. rewrite Hty.
  destruct (current_frame_command_bytes self) as [| c0 [| c1 rc]].
  - reflexivity.
  - cbn. destruct (c0 =? 1); reflexivity.
  - cbn. rewrite (Hunknown c1 eq_refl). reflexivity.
Qed.

(** A [result] frame that carries a pair of words appends one value to each
    list and keeps the start time. *)
Lemma decode_carries self frame p :
  carries frame p ->
  let d := decode self frame in
  current_frame_command_bytes (next d) =
    (current_frame_command_bytes self ++ [int_from_bytes_big (fst p)])%list /\
  current_frame_data_bytes (next d) =
    (current_frame_data_bytes self ++ [int_from_bytes_big (snd p)])%list /\
  current_frame_start_time (next d) = current_frame_start_time self /\
  returned d = Ok None /\ calls d = [].
Proof.
  intros (Hty & Hmosi & Hmiso). cbv zeta. unfold decode, frame_int.
  rewrite Hty, Hmosi, Hmiso.
  cbn [String.eqb Ascii.eqb Bool.eqb].
  destruct ((current_frame_index self =? 0)
            && negb (int_from_bytes_big (fst p) =? 1)).
  - repeat split.
  - destruct (current_frame_index self =? 1).
    + destruct (negb (dict_mem COMMAND_METADATA (int_from_bytes_big (fst p))));
        repeat split.
    + repeat split.
Qed.

Lemma final_carried results pairs :
  Forall2 carries results pairs ->
  forall self,
    let self' := final self results in
    current_frame_command_bytes self' =
      (current_frame_command_bytes self ++ console_values pairs)%list /\
    current_frame_data_bytes self' =
      (current_frame_data_bytes self ++ device_values pairs)%list /\
    current_frame_start_time self' = current_frame_start_time self.
Proof.
  induction 1 as [| f p results pairs Hf Hrest IH]; intros self; cbv zeta.
  - cbn. rewrite !app_nil_r. repeat split.
  - cbn [console_values device_values map final fold_left].
    destruct (decode_carries self f p Hf) as (Hc & Hd & Hs & _).
    destruct (IH (next (decode self f))) as (Hc' & Hd' & Hs').
    unfold final, console_values, device_values in Hc', Hd', Hs'.
    rewrite Hc', Hd', Hs', Hc, Hd, Hs.
    rewrite <- !app_assoc. repeat split.
Qed.

Lemma run_carried results pairs :
  Forall2 carries results pairs ->
  forall self,
    map returned (run self results) = map (fun _ => Ok None) results /\
    Forall silent (run self results).
Proof.
  induction 1 as [| f p results pairs Hf Hrest IH]; intros self.
  - split; [ reflexivity | constructor ].
  - cbn [map run].
    destruct (decode_carries self f p Hf) as (_ & _ & _ & Hr & Hcalls).
    destruct (IH (next (decode self f))) as (Hmap & Hsilent).
    split.
    + rewrite Hr. f_equal. exact Hmap.
    + constructor; [ | exact Hsilent ].
      split; [ unfold emits; rewrite Hr; reflexivity | exact Hcalls ].
Qed.

Lemma no_start_decode self frame :
  type frame <> "enable" ->
  coherent self ->
  current_frame_start_time self = None ->
  current_frame_start_time (next (decode self frame)) = None /\
  silent (decode self frame).
Proof.
  intros Hne Hco Hnone. unfold decode.
  destruct (String.eqb_spec (type frame) "enable") as [He | _];
    [ contradiction | ].
  destruct (String.eqb_spec (type frame) "result") as [_ | _].
  - destruct (frame_int frame "mosi") as [command | e];
      [ | repeat split; exact Hnone ].
    destruct (frame_int frame "miso") as [data0 | e];
      [ | repeat split; exact Hnone ].
    repeat split.
    destruct ((current_frame_index self =? 0) && negb (command =? 1));
      [ exact Hnone | ].
    destruct (current_frame_index self =? 1); [ | exact Hnone ].
    destruct (negb (dict_mem COMMAND_METADATA command)); exact Hnone.
  - destruct (String.eqb_spec (type frame) "disable") as [Hd | _];
      [ | repeat split; exact Hnone ].
    rewrite Hnone. repeat split; exact Hnone.
Qed.

Lemma returned_ok_decode self frame :
  spi_frame frame ->
  resolved self ->
  exists o, returned (decode self frame) = Ok o.
Proof.
  intros Hspi Hres. unfold decode.
  destruct (String.eqb_spec (type frame) "enable") as [_ | _];
    [ now exists None | ].
  destruct (String.eqb_spec (type frame) "result") as [Hr | _].
  - destruct (Hspi Hr) as (mosi & miso & Hmosi & Hmiso).
    unfold frame_int. rewrite Hmosi, Hmiso. now exists None.
  - destruct (String.eqb_spec (type frame) "disable") as [_ | _];
      [ | now exists None ].
    destruct (current_frame_start_time self) as [start |];
      [ | now exists None ].
    destruct (type_is self "valid-command") eqn:Hvalid; [ | now exists None ].
    destruct (Hres Hvalid) as (cid & meta & mode & Hcid & Hget & Hmode).
    unfold finalize. rewrite Hcid, Hget, Hmode.
    destruct (command_details_generator meta (args_of self)) as [r1 a1].
    destruct (data_details_generator meta a1) as [r2 a2].
    eexists. reflexivity.
Qed.

(** ** Further decoder properties *)

(** X10: whatever frames a fresh analyzer has been fed, its fields agree
    with the bytes it holds: the index counts the accumulated pairs, the two
    lists have the same length, the classification is the one the first two
    console bytes lead to (none before a byte, "invalid-packet" after a
    lone first byte other than 0x01, and from the second byte on
    "valid-command" or "invalid-command" by the command table alone), and
    the command id and the mode are the entries at offset 1. *)
Theorem analyzer_fields_coherent frames :
  let self := final reset frames in
  current_frame_index self
    = Z.of_nat (List.length (current_frame_command_bytes self)) /\
  List.length (current_frame_command_bytes self)
    = List.length (current_frame_data_bytes self) /\
  current_frame_type self =
    match current_frame_command_bytes self with
    | [] => None
    | [c0] => if c0 =? 1 then None else Some "invalid-packet"
    | _ :: c1 :: _ =>
        Some (if dict_mem COMMAND_METADATA c1 then "valid-command"
              else "invalid-command")
    end /\
  current_frame_command_id self = nth_error (current_frame_command_bytes self) 1 /\
  current_controller_mode self = nth_error (current_frame_data_bytes self) 1.
Proof. exact (coherent_final frames reset coherent_reset). Qed.

(** X11: without a start marker nothing is ever emitted: on a fresh
    analyzer, a run of frames none of which is [enable] returns no annotation
    and calls no renderer, and the analyzer still has no start time. *)
Theorem no_start_marker_silent frames :
  Forall (fun f => type f <> "enable") frames ->
  Forall silent (run reset frames) /\
  current_frame_start_time (final reset frames) = None.
Proof.
  assert (H : forall self,
             coherent self -> current_frame_start_time self = None ->
             Forall (fun f => type f <> "enable") frames ->
             Forall silent (run self frames) /\
             current_frame_start_time (final self frames) = None).
  { induction frames as [| f r IH]; intros self Hco Hnone Hall.
    - split; [ constructor | exact Hnone ].
    - inversion Hall as [| ? ? Hf Hr]; subst.
      destruct (no_start_decode self f Hf Hco Hnone) as [Hnone' Hsilent].
      destruct (IH (next (decode self f))
                   (coherent_decode self f Hco) Hnone' Hr) as [Hrun Hfin].
      split; [ constructor; assumption | exact Hfin ]. }
  apply H; [ apply coherent_reset | reflexivity ].
Qed.

Lemma no_start_marker_silent_witness :
  Forall silent
    (run reset
       [result_frame (GraphTimeAt 1) (GraphTimeAt 2) (word 1) (word 255);
        result_frame (GraphTimeAt 3) (GraphTimeAt 4) (word 66) (word 115);
        disable_frame (GraphTimeAt 5)]).
Proof.
  apply no_start_marker_silent.
  repeat constructor; discriminate.
Defined.

(** X12: on frames as the SPI analyzer builds them (every [result] frame
    carries bytes under "mosi" and "miso"), no call of [decode] on an
    analyzer that started fresh lets an exception escape: the lookups of the
    end-marker branch cannot fail and every renderer fault is caught. *)
Theorem decode_never_raises frames :
  Forall spi_frame frames ->
  Forall (fun d => exists o, returned d = Ok o) (run reset frames).
Proof.
  assert (H : forall self,
             resolved self -> Forall spi_frame frames ->
             Forall (fun d => exists o, returned d = Ok o) (run self frames)).
  { induction frames as [| f r IH]; intros self Hres Hall; cbn [run].
    - constructor.
    - inversion Hall as [| ? ? Hf Hr]; subst. constructor.
      + apply returned_ok_decode; assumption.
      + apply IH; [ apply resolved_decode; exact Hres | exact Hr ]. }
  apply H. apply resolved_reset.
Qed.

Lemma decode_never_raises_witness :
  Forall (fun d => exists o, returned d = Ok o)
    (run reset
       [enable_frame (GraphTimeAt 0);
        result_frame (GraphTimeAt 1) (GraphTimeAt 2) (word 1) (word 255);
        result_frame (GraphTimeAt 3) (GraphTimeAt 4) (word 66) (word 115);
        disable_frame (GraphTimeAt 5)]).
Proof.
  apply decode_never_raises.
  repeat constructor; intros H; try discriminate H;
    eexists _, _; split; reflexivity.
Defined.

(** X13: a start marker wipes everything before it: what the analyzer
    does from an [enable] frame on is what a fresh analyzer does on those
    frames, whatever it was fed earlier (an abandoned transaction leaves no
    trace). *)
Theorem start_marker_forgets self before e after :
  type e = "enable" ->
  run self (before ++ e :: after) =
  (run self before ++ run reset (e :: after))%list.
Proof.
  intros He. rewrite run_app. f_equal.
  cbn [run]. rewrite !(decode_enable _ e He). reflexivity.
Qed.

Lemma start_marker_forgets_witness :
  let e := enable_frame (GraphTimeAt 7) in
  let before :=
    [enable_frame (GraphTimeAt 0);
     result_frame (GraphTimeAt 1) (GraphTimeAt 2) (word 1) (word 255);
     result_frame (GraphTimeAt 3) (GraphTimeAt 4) (word 66) (word 115)] in
  let after := [disable_frame (GraphTimeAt 9)] in
  run reset (before ++ e :: after) =
  (run reset before ++ run reset (e :: after))%list.
Proof.
  intros e before after.
  exact (start_marker_forgets reset before e after eq_refl).
Defined.

(** X14: the annotation of a whole transaction.  From any analyzer state, a
    start marker, [result] frames that carry a list of byte pairs and an end
    marker return nothing until the end marker; if the second console value
    is an id of the command table, the end marker returns one
    "valid-command" annotation that spans from the start time of the start
    marker to the end time of the end marker (the other times of the frames
    play no part) and carries the mode name of the second device value
    ("Unknown Mode" if it has none), both second values in two-digit
    upper-case hexadecimal, the name of the descriptor, and the two details
    rendered from the values of all the pairs. *)
Theorem transaction_annotation self e results d pairs c1 d1 meta :
  type e = "enable" ->
  type d = "disable" ->
  Forall2 carries results pairs ->
  nth_error (console_values pairs) 1 = Some c1 ->
  nth_error (device_values pairs) 1 = Some d1 ->
  dict_get COMMAND_METADATA c1 = Some meta ->
  let a := mkArgs (console_values pairs) (device_values pairs) in
  map returned (run self (e :: results ++ [d])%list) =
  (Ok None :: map (fun _ => Ok None) results ++
   [Ok (Some (mkAnalyzerFrame "valid-command" (start_time e) (end_time d)
      [("mode_string",
        Str (match dict_get MODE_NAMES d1 with
             | Some s => s
             | None => "Unknown Mode"
             end));
       ("mode_id", Str (format_02X d1));
       ("command_name", Str (name meta));
       ("command_id", Str (format_02X c1));
       ("command_details",
        Str (let c := or_error (fst (command_details_generator meta a)) in
             if nonempty c then " - " ++ c else EmptyString));
       ("data_details",
        Str (or_error (fst (data_details_generator meta a))))]))])%list.
Proof.
  intros He Hdis Hcarried Hc1 Hd1 Hget a.
  cbn [run]. rewrite (decode_enable self e He).
  cbn [next returned map]. f_equal.
  set (s1 := mkHla None (Some (start_time e)) None None [] [] 0).
  rewrite run_app, map_app.
  rewrite (proj1 (run_carried results pairs Hcarried s1)). f_equal.
  destruct (final_carried results pairs Hcarried s1) as (Hcb & Hdb & Hst).
  cbn [current_frame_command_bytes current_frame_data_bytes
       current_frame_start_time s1 app] in Hcb, Hdb, Hst.
  assert (Hco : coherent (final s1 results)).
  { apply coherent_final. repeat split. }
  cbn [run map].
  rewrite (decode_disable_valid _ d (start_time e) c1 d1 meta Hdis Hco Hst);
    [ | rewrite Hcb; exact Hc1 | rewrite Hdb; exact Hd1 | exact Hget ].
  unfold args_of. rewrite Hcb, Hdb. reflexivity.
Qed.

Lemma transaction_annotation_witness :
  map returned
    (run reset
       [mkAnalyzerFrame "enable" (GraphTimeAt 10) (GraphTimeAt 11) [];
        result_frame (GraphTimeAt 12) (GraphTimeAt 13) (word 1) (word 255);
        result_frame (GraphTimeAt 14) (GraphTimeAt 15) (word 68) (word 115);
        result_frame (GraphTimeAt 16) (GraphTimeAt 17) (word 0) (word 90);
        result_frame (GraphTimeAt 18) (GraphTimeAt 19) (word 1) (word 255);
        result_frame (GraphTimeAt 20) (GraphTimeAt 21) (word 3) (word 255);
        mkAnalyzerFrame "disable" (GraphTimeAt 22) (GraphTimeAt 23) []])
  = [Ok None; Ok None; Ok None; Ok None; Ok None; Ok None;
     Ok (Some (mkAnalyzerFrame "valid-command" (GraphTimeAt 10) (GraphTimeAt 23)
        [("mode_string", Str "Analog"); ("mode_id", Str "73");
         ("command_name", Str "Switch Analog/Digital Mode");
         ("command_id", Str "44");
         ("command_details", Str " - Set Analog (Locked)");
         ("data_details", Str "(...)")]))].
Proof.
  assert (Hcarried :
    Forall2 carries
      [result_frame (GraphTimeAt 12) (GraphTimeAt 13) (word 1) (word 255);
       result_frame (GraphTimeAt 14) (GraphTimeAt 15) (word 68) (word 115);
       result_frame (GraphTimeAt 16) (GraphTimeAt 17) (word 0) (word 90);
       result_frame (GraphTimeAt 18) (GraphTimeAt 19) (word 1) (word 255);
       result_frame (GraphTimeAt 20) (GraphTimeAt 21) (word 3) (word 255)]
      [(word 1, word 255); (word 68, word 115); (word 0, word 90);
       (word 1, word 255); (word 3, word 255)])
    by (repeat constructor).
  exact (transaction_annotation reset
           (mkAnalyzerFrame "enable" (GraphTimeAt 10) (GraphTimeAt 11) [])
           _
           (mkAnalyzerFrame "disable" (GraphTimeAt 22) (GraphTimeAt 23) [])
           _ 68 115
           (mkCommandMetadata 68 "Switch Analog/Digital Mode"
              cmd44_command_details data_empty_details)
           eq_refl eq_refl Hcarried eq_refl eq_refl eq_refl).
Defined.

(** X15: when an end marker emits.  On an analyzer that started fresh, an
    end marker returns an annotation exactly when a start time is recorded
    and the console value at offset 1 exists and is an id of the command
    table; it then calls the command-side and the data-side generator of
    that id, once each and in this order, and otherwise calls none.  The
    console value at offset 0 plays no part. *)
Theorem end_marker_emits_iff frames frame :
  type frame = "disable" ->
  let self := final reset frames in
  let d := decode self frame in
  (emits d = true <->
   current_frame_start_time self <> None /\
   exists c1, nth_error (current_frame_command_bytes self) 1 = Some c1 /\
              dict_mem COMMAND_METADATA c1 = true) /\
  (emits d = true ->
   exists c1, nth_error (current_frame_command_bytes self) 1 = Some c1 /\
              calls d = [(c1, CommandSide); (c1, DataSide)]) /\
  (emits d = false -> calls d = []).
Proof.
  intros Hdis self d.
  assert (Hco : coherent self)
    by (apply coherent_final, coherent_reset).
  assert (Hcases :
    (exists start c1 d1 meta,
        current_frame_start_time self = Some start /\
        nth_error (current_frame_command_bytes self) 1 = Some c1 /\
        nth_error (current_frame_data_bytes self) 1 = Some d1 /\
        dict_get COMMAND_METADATA c1 = Some meta) \/
    (current_frame_start_time self = None \/
     forall c1, nth_error (current_frame_command_bytes self) 1 = Some c1 ->
                dict_mem COMMAND_METADATA c1 = false)).
  { destruct (current_frame_start_time self) as [start |];
      [ | right; left; reflexivity ].
    destruct (nth_error (current_frame_command_bytes self) 1) as [c1 |] eqn:E1;
      [ | right; right; intros c1 H; discriminate H ].
    destruct (dict_get COMMAND_METADATA c1) as [meta |] eqn:Hget.
    - destruct (nth_error_in_range (current_frame_data_bytes self) 1)
        as [d1 Hd1].
      { destruct Hco as (_ & Hlen & _). rewrite <- Hlen.
        apply (nth_error_short _ _ _ E1). }
      left. exists start, c1, d1, meta. auto.
    - right; right. intros c1' [= <-]. unfold dict_mem. rewrite Hget.
      reflexivity. }
  destruct Hcases as [(start & c1 & d1 & meta & Hst & Hc1 & Hd1 & Hget) | Hq].
  - unfold d.
    rewrite (decode_disable_valid self frame start c1 d1 meta
               Hdis Hco Hst Hc1 Hd1 Hget).
    cbn [emits returned calls]. repeat split.
    + rewrite Hst. discriminate.
    + exists c1. split; [ exact Hc1 | ].
      unfold dict_mem. rewrite Hget. reflexivity.
    + exists c1. split; [ exact Hc1 | reflexivity ].
    + discriminate.
  - unfold d. rewrite (decode_disable_quiet self frame Hdis Hco Hq).
    cbn [emits returned calls]. repeat split; try discriminate.
    intros [Hst (c1 & Hc1 & Hmem)].
    destruct Hq as [Hnone | Hunknown]; [ contradiction | ].
    rewrite (Hunknown c1 Hc1) in Hmem. discriminate.
Qed.

Lemma end_marker_emits_iff_witness :
  let frames :=
    [enable_frame (GraphTimeAt 0);
     result_frame (GraphTimeAt 1) (GraphTimeAt 2) (word 0) (word 255);
     result_frame (GraphTimeAt 3) (GraphTimeAt 4) (word 69) (word 65)] in
  let d := decode (final reset frames) (disable_frame (GraphTimeAt 5)) in
  emits d = true /\ calls d = [(69, CommandSide); (69, DataSide)].
Proof.
  intros frames d.
  destruct (end_marker_emits_iff frames (disable_frame (GraphTimeAt 5))
              eq_refl) as (Hiff & Hcalls & _).
  assert (He : emits d = true).
  { apply (proj2 Hiff). split; [ discriminate | ].
    exists 69. split; reflexivity. }
  split; [ exact He | ].
  destruct (Hcalls He) as (c1 & Hc1 & Hlog).
  injection Hc1 as <-. exact Hlog.
Defined.

(** X16: frames of a type [decode] has no branch for (the SPI analyzer's
    "error" frames, for one) are ignored altogether: dropping them from a
    capture changes neither the annotations handed to the host nor the
    analyzer at the end. *)
Theorem unhandled_frames_ignored frames :
  forall self,
    annotations (run self (filter handled frames)) = annotations (run self frames)
    /\ final self (filter handled frames) = final self frames.
Proof.
  induction frames as [| f r IH]; intros self; [ split; reflexivity | ].
  cbn [filter]. destruct (handled f) eqn:Hh.
  - cbn [run annotations final fold_left].
    destruct (IH (next (decode self f))) as [Ha Hf].
    unfold final in Hf. rewrite Ha, Hf. split; reflexivity.
  - cbn [run annotations final fold_left].
    rewrite (decode_unhandled self f Hh). cbn [next returned].
    apply IH.
Qed.

(** ** Words and their hexadecimal form *)

Lemma int_fold_shift b :
  forall acc,
    fold_left (fun acc x => acc * 256 + Z.of_N (Byte.to_N x)) b acc =
    acc * 256 ^ Z.of_nat (List.length b)
    + fold_left (fun acc x => acc * 256 + Z.of_N (Byte.to_N x)) b 0.
Proof.
  induction b as [| x r IH]; intros acc.
  - cbn. lia.
  - cbn [fold_left List.length]. rewrite IH.
    rewrite (IH (0 * 256 + Z.of_N (Byte.to_N x))).
    rewrite Nat2Z.inj_succ, Z.pow_succ_r by lia. ring.
Qed.

Lemma upper_hex_string_inj d :
  forall d', upper_hex_string d = upper_hex_string d' -> d = d'.
Proof.
  induction d as [| r IH | r IH | r IH | r IH | r IH | r IH | r IH | r IH
                  | r IH | r IH | r IH | r IH | r IH | r IH | r IH | r IH ];
    intros [| r' | r' | r' | r' | r' | r' | r' | r'
            | r' | r' | r' | r' | r' | r' | r' | r' ];
    cbn [upper_hex_string]; intros H; try discriminate H;
    try reflexivity; injection H as H; f_equal; apply IH; exact H.
Qed.

(** A numeral printed by [N.to_hex_uint] has no leading zero, except zero
    itself. *)
Lemma to_hex_uint_leading_zero n d :
  N.to_hex_uint n = Hexadecimal.D0 d -> d = Hexadecimal.Nil.
Proof.
  intros H.
  pose proof (HexadecimalN.Unsigned.to_of (N.to_hex_uint n)) as Hnorm.
  rewrite HexadecimalN.Unsigned.of_to, H in Hnorm.
  rewrite HexadecimalFacts.unorm_D0 in Hnorm.
  destruct (Hexadecimal.nzhead d) eqn:Hz;
    try (rewrite HexadecimalFacts.unorm_nzhead in Hnorm
           by (rewrite Hz; discriminate);
         symmetry in Hnorm;
         destruct (HexadecimalFacts.nzhead_nonzero _ _ Hnorm)).
  apply HexadecimalFacts.unorm_0 in Hz.
  rewrite Hz in Hnorm. injection Hnorm as ->. reflexivity.
Qed.

Lemma upper_hex_string_length d :
  String.length (upper_hex_string d) = Hexadecimal.nb_digits d.
Proof.
  induction d; cbn [upper_hex_string String.length Hexadecimal.nb_digits];
    congruence.
Qed.

Lemma format_02X_pad_inj n n' :
  let s := hex_upper n in
  let s' := hex_upper n' in
  (if (String.length s <? 2)%nat then "0" ++ s else s) =
  (if (String.length s' <? 2)%nat then "0" ++ s' else s') ->
  n = n'.
Proof.
  intros s s'.
  assert (Hinj : s = s' -> n = n').
  { unfold s, s', hex_upper. intros H.
    apply HexadecimalN.Unsigned.to_uint_inj.
    apply upper_hex_string_inj. exact H. }
  assert (Hmix : forall m m',
             (String.length (hex_upper m') <? 2)%nat = false ->
             "0" ++ hex_upper m = hex_upper m' -> False).
  { intros m m' Hlong H. unfold hex_upper in *.
    destruct (N.to_hex_uint m') as [| d | | | | | | | | | | | | | | |] eqn:E;
      cbn [upper_hex_string] in H; try discriminate H.
    apply to_hex_uint_leading_zero in E. subst d.
    cbn in Hlong. discriminate. }
  destruct (String.length s <? 2)%nat eqn:L;
    destruct (String.length s' <? 2)%nat eqn:L'; intros H.
  - apply Hinj. injection H as H. exact H.
  - destruct (Hmix n n' L' H).
  - destruct (Hmix n' n L (eq_sym H)).
  - apply Hinj. exact H.
Qed.

(** X17: [int.from_bytes(b, 'big')] is never negative and stays below
    [256 ** len(b)]; the bytes of a word are read most significant first,
    so a word followed by another is the first shifted left by the length of
    the second, plus the second.  A missing word (no bytes) is 0. *)
Theorem int_from_bytes_big_bounds b b' :
  0 <= int_from_bytes_big b < 256 ^ Z.of_nat (List.length b) /\
  int_from_bytes_big (b ++ b') =
    int_from_bytes_big b * 256 ^ Z.of_nat (List.length b')
    + int_from_bytes_big b'.
Proof.
  split.
  - unfold int_from_bytes_big.
    induction b as [| x r IH] using rev_ind.
    + cbn. lia.
    + rewrite fold_left_app, length_app. cbn [fold_left List.length].
      pose proof (Byte.to_N_bounded x) as Hx.
      replace (Z.of_nat (List.length r + 1)) with (Z.succ (Z.of_nat (List.length r)))
        by lia.
      rewrite Z.pow_succ_r by lia. lia.
  - unfold int_from_bytes_big. rewrite fold_left_app.
    apply int_fold_shift.
Qed.

(** X18: ['%02X' % n] prints a value below 256 in exactly two characters,
    and prints different non-negative values differently, padded or not. *)
Theorem format_02X_faithful a b :
  0 <= a -> 0 <= b ->
  (a < 256 -> String.length (format_02X a) = 2%nat) /\
  (format_02X a = format_02X b -> a = b).
Proof.
  intros Ha Hb. split.
  - intros Hlt.
    assert (Hall : forallb
                     (fun k => (String.length (format_02X (Z.of_nat k)) =? 2)%nat)
                     (seq 0 256) = true) by (vm_compute; reflexivity).
    rewrite forallb_forall in Hall.
    specialize (Hall (Z.to_nat a)).
    rewrite Z2Nat.id in Hall by lia.
    apply Nat.eqb_eq. apply Hall. apply in_seq. lia.
  - unfold format_02X.
    replace (a <? 0) with false by (symmetry; apply Z.ltb_ge; lia).
    replace (b <? 0) with false by (symmetry; apply Z.ltb_ge; lia).
    intros H. apply format_02X_pad_inj in H. lia.
Qed.

Lemma format_02X_faithful_witness :
  String.length (format_02X 10) = 2%nat /\
  (format_02X 10 = format_02X 4096 -> 10 = 4096).
Proof.
  assert (H10 : 0 <= 10) by (intros H; discriminate H).
  assert (H4096 : 0 <= 4096) by (intros H; discriminate H).
  destruct (format_02X_faithful 10 4096 H10 H4096) as (Hlen & Hinj).
  split; [ apply Hlen; reflexivity | exact Hinj ].
Defined.

Lemma int_from_bytes_big_nonneg b : 0 <= int_from_bytes_big b.
Proof.
  unfold int_from_bytes_big.
  induction b as [| x r IH] using rev_ind; [ cbn; lia | ].
  rewrite fold_left_app. cbn [fold_left]. lia.
Qed.

Lemma frame_int_nonneg frame k v : frame_int frame k = Ok v -> 0 <= v.
Proof.
  unfold frame_int.
  destruct (data_get (data frame) k) as [[b | s] | e]; try discriminate.
  intros [= <-]. apply (int_from_bytes_big_nonneg b).
Qed.

Lemma nonneg_decode self frame :
  Forall (fun z => 0 <= z) (current_frame_command_bytes self) /\
  Forall (fun z => 0 <= z) (current_frame_data_bytes self) ->
  Forall (fun z => 0 <= z) (current_frame_command_bytes (next (decode self frame)))
  /\
  Forall (fun z => 0 <= z) (current_frame_data_bytes (next (decode self frame))).
Proof.
  intros [Hc Hd]. unfold decode.
  destruct (String.eqb_spec (type frame) "enable") as [_ | _].
  { split; constructor. }
  destruct (String.eqb_spec (type frame) "result") as [_ | _].
  - destruct (frame_int frame "mosi") as [command | e] eqn:Emosi;
      [ | split; assumption ].
    destruct (frame_int frame "miso") as [data0 | e] eqn:Emiso;
      [ | split; assumption ].
    apply frame_int_nonneg in Emosi, Emiso.
    assert (Hc' : Forall (fun z => 0 <= z)
                    (current_frame_command_bytes self ++ [command]))
      by (apply Forall_app; split; [ exact Hc | repeat constructor; exact Emosi ]).
    assert (Hd' : Forall (fun z => 0 <= z)
                    (current_frame_data_bytes self ++ [data0]))
      by (apply Forall_app; split; [ exact Hd | repeat constructor; exact Emiso ]).
    destruct ((current_frame_index self =? 0) && negb (command =? 1));
      [ split; assumption | ].
    destruct (current_frame_index self =? 1); [ | split; assumption ].
    destruct (negb (dict_mem COMMAND_METADATA command)); split; assumption.
  - destruct (String.eqb_spec (type frame) "disable") as [Hdis | _];
      [ | split; assumption ].
    fold (decode self frame).
    assert (Hn : next (decode self frame) = self)
      by (apply decode_disable_next; exact Hdis).
    rewrite decode_disable in Hn by exact Hdis. rewrite Hn.
    split; assumption.
Qed.

(** X19: every value the analyzer accumulates is a non-negative integer,
    whatever frames it is fed, so the command id and the mode are never
    printed with a sign. *)
Theorem accumulated_values_nonneg frames :
  let self := final reset frames in
  Forall (fun z => 0 <= z) (current_frame_command_bytes self) /\
  Forall (fun z => 0 <= z) (current_frame_data_bytes self) /\
  (forall c, current_frame_command_id self = Some c -> 0 <= c) /\
  (forall m, current_controller_mode self = Some m -> 0 <= m).
Proof.
  intros self.
  assert (H : forall s,
             Forall (fun z => 0 <= z) (current_frame_command_bytes s) /\
             Forall (fun z => 0 <= z) (current_frame_data_bytes s) ->
             Forall (fun z => 0 <= z)
                    (current_frame_command_bytes (final s frames)) /\
             Forall (fun z => 0 <= z)
                    (current_frame_data_bytes (final s frames))).
  { induction frames as [| f r IH]; intros s Hs; [ exact Hs | ].
    apply (IH (next (decode s f))). apply nonneg_decode. exact Hs. }
  destruct (H reset (conj (Forall_nil _) (Forall_nil _))) as [Hc Hd].
  fold self in Hc, Hd.
  destruct (coherent_final frames reset coherent_reset)
    as (_ & _ & _ & Hcid & Hmode).
  fold self in Hcid, Hmode.
  split; [ exact Hc | split; [ exact Hd | split ] ].
  - intros c Hsome. rewrite Hcid in Hsome. apply nth_error_In in Hsome.
    rewrite Forall_forall in Hc. apply Hc. exact Hsome.
  - intros m Hsome. rewrite Hmode in Hsome. apply nth_error_In in Hsome.
    rewrite Forall_forall in Hd. apply Hd. exact Hsome.
Qed.
